(** * Solertia: the dashboard pages and the conversational reservation core

    A shallow embedding of the parts of the Solertia monorepo that its
    specification talks about, with the properties of the specification
    stated and proved (or refuted) over it.

    - [JS]            the few built-ins of the JavaScript runtime the pages use;
    - [Chat]          [frontend/src/pages/Chat.tsx]: [loadHistory] and
                      [handleSendMessage] as programs of a small
                      state-and-exception monad over the component state;
    - [Reservations]  the summary counters of the reservations page;
    - [Menu]          the client-side filter of the menu page;
    - [CRM]           the summary figures of the CRM page;
    - [Numbers]       array lengths as binary64 numbers;
    - [Core]          the conversational core (tracker, executor,
                      orchestrator), which lives in the Python backend.

    JavaScript strings are modelled as [string], a finite sequence of code
    units; JavaScript numbers that are array lengths or indexes as [nat],
    other numbers as IEEE 754 binary64 [float]. *)

From Stdlib Require Import Floats ZArith Ascii.
From stdpp Require Import gmap strings list fin_maps pretty.

(* ===================================================================== *)
(** * Runtime built-ins *)
(* ===================================================================== *)

Module JS.

(** Thrown values. Every value thrown or rejected in the pages is an
    [Error] carrying a message. *)
Inductive exn : Type := Error (message : string).

(** The outcome of awaiting a promise: rejected with an error, or
    fulfilled with a value. *)
Definition settled (A : Type) : Type := (exn + A)%type.

(** What the pages read of a [fetch] [Response]: the [ok] flag, the
    status and the two body readers, each of which may reject. *)
Record Response (B : Type) : Type := mkResponse {
  ok : bool;
  status : nat;
  text : settled string;
  json : settled B
}.
Arguments mkResponse {B} _ _ _ _.
Arguments ok {B} _.
Arguments status {B} _.
Arguments text {B} _.
Arguments json {B} _.

(** Truthiness of a string: only the empty string is falsy. *)
Definition truthy (s : string) : bool := negb (String.eqb s "").

(** [a || b] on strings. *)
Definition or_else (a b : string) : string := if truthy a then a else b.

(** [s.startsWith(p)]. *)
Fixpoint startsWith (s p : string) {struct p} : bool :=
  match p with
  | EmptyString => true
  | String b p' =>
      match s with
      | EmptyString => false
      | String a s' => if Ascii.eqb a b then startsWith s' p' else false
      end
  end.

(** [s.includes(q)]: [q] occurs in [s] at some position. *)
Fixpoint includes (s q : string) : bool :=
  startsWith s q ||
  match s with
  | EmptyString => false
  | String _ s' => includes s' q
  end.

(** [l.join(sep)]. *)
Definition join (sep : string) (l : list string) : string :=
  String.concat sep l.

(** [String(n)] for a non-negative integer. *)
Definition string_of_nat (n : nat) : string := pretty n.

(** An array length as a number. Array lengths are below [2^32], where
    the conversion is exact. *)
Definition number_of_nat (n : nat) : float :=
  PrimFloat.of_uint63 (Uint63.of_Z (Z.of_nat n)).

(** The restriction of [String.prototype.toLowerCase] to ASCII: the
    letters [A]..[Z] are mapped to [a]..[z]. *)
Definition ascii_lower (c : ascii) : ascii :=
  let n := nat_of_ascii c in
  if (65 <=? n)%nat && (n <=? 90)%nat then ascii_of_nat (n + 32) else c.

Fixpoint ascii_toLowerCase (s : string) : string :=
  match s with
  | EmptyString => EmptyString
  | String c s' => String (ascii_lower c) (ascii_toLowerCase s')
  end.

(** The restriction of [String.prototype.trim] to the white space and
    line terminators of ASCII: TAB, LF, VT, FF, CR and SP. *)
Definition ascii_space (c : ascii) : bool :=
  let n := nat_of_ascii c in
  ((9 <=? n)%nat && (n <=? 13)%nat) || (n =? 32)%nat.

Fixpoint trimStart (s : string) : string :=
  match s with
  | EmptyString => EmptyString
  | String c s' => if ascii_space c then trimStart s' else s
  end.

Definition ascii_trim (s : string) : string :=
  String.rev (trimStart (String.rev (trimStart s))).

End JS.

(* ===================================================================== *)
(** * The chat page *)
(* ===================================================================== *)

Module Chat.
Import JS.

Definition DASHBOARD_CUSTOMER_ID : string := "dashboard-demo".

Inductive Role : Type := user | assistant.

Record Message : Type := mkMessage {
  id : nat;
  role : Role;
  content : string;
  timestamp : string
}.

Record BackendHistoryItem : Type := mkHistoryItem {
  item_role : Role;
  item_content : string
}.

Record ChatHistoryResponse : Type := mkHistoryResponse {
  history_customer_id : string;
  history : list BackendHistoryItem
}.

(** A JSON value, for the [Record<string, any>] of [reservation_data]. *)
#[warnings="-register-all"] Inductive json_value : Type :=
| JNull
| JBool (b : bool)
| JNumber (x : float)
| JString (s : string)
| JArray (items : list json_value)
| JObject (fields : list (string * json_value)).

(** [reservation_data?: Record<string, any> | null]: absent, [null], or
    an object. *)
Inductive ReservationData : Type :=
| rd_absent
| rd_null
| rd_object (fields : list (string * json_value)).

Record ChatResponse : Type := mkChatResponse {
  response : string;
  route : string;
  pending_reservation : bool;
  pending_update : bool;
  pending_cancel : bool;
  reservation_data : ReservationData;
  customer_id : string
}.

(** The body the page posts to [/chat]. *)
Record ChatRequest : Type := mkChatRequest {
  req_message : string;
  req_customer_id : string
}.

(** The component state ([useState]), together with what the handlers
    leave outside it: the toasts shown, the console, and the number of
    times the clock has been read. *)
Record State : Type := mkState {
  st_messages : list Message;
  st_input : string;
  st_isLoading : bool;
  st_toasts : list string;
  st_console : list string;
  st_clock_reads : nat
}.

(** ** A monad for the handlers: state, and exceptions that a
    [try]/[catch]/[finally] can intercept. *)

Definition Eff (A : Type) : Type := State -> State * settled A.

Definition ret {A} (a : A) : Eff A := fun st => (st, inr a).

Definition bind {A B} (m : Eff A) (k : A -> Eff B) : Eff B :=
  fun st =>
    match m st with
    | (st', inr a) => k a st'
    | (st', inl e) => (st', inl e)
    end.

Definition throw {A} (e : exn) : Eff A := fun st => (st, inl e).

(** [await p] for a promise whose outcome is [p]. *)
Definition await {A} (p : settled A) : Eff A := fun st => (st, p).

Definition modify (f : State -> State) : Eff unit :=
  fun st => (f st, inr tt).

Notation "x <- m ;; k" := (bind m (fun x => k))
  (at level 100, m at next level, right associativity).
Notation "m ;; k" := (bind m (fun _ => k))
  (at level 100, right associativity).

(** [try { body } catch (err) { handler } finally { fin }]. *)
Definition try_catch_finally
    (body : Eff unit) (handler : exn -> Eff unit) (fin : Eff unit) : Eff unit :=
  fun st =>
    match body st with
    | (st1, inr _) => fin st1
    | (st1, inl e) =>
        match handler e st1 with
        | (st2, inr _) => fin st2
        | (st2, inl e') =>
            match fin st2 with
            | (st3, inr _) => (st3, inl e')
            | (st3, inl e'') => (st3, inl e'')
            end
        end
    end.

(** The state after running a handler. *)
Definition run (m : Eff unit) (st : State) : State := fst (m st).

(** [setMessages]: React applies the updater to the state current at
    that moment; passing a value is the constant updater. *)
Definition setMessages (f : list Message -> list Message) : Eff unit :=
  modify (fun st =>
    mkState (f (st_messages st)) (st_input st) (st_isLoading st)
            (st_toasts st) (st_console st) (st_clock_reads st)).

Definition setInput (v : string) : Eff unit :=
  modify (fun st =>
    mkState (st_messages st) v (st_isLoading st)
            (st_toasts st) (st_console st) (st_clock_reads st)).

Definition setIsLoading (v : bool) : Eff unit :=
  modify (fun st =>
    mkState (st_messages st) (st_input st) v
            (st_toasts st) (st_console st) (st_clock_reads st)).

Definition toast_error (msg : string) : Eff unit :=
  modify (fun st =>
    mkState (st_messages st) (st_input st) (st_isLoading st)
            (st_toasts st ++ [msg]) (st_console st) (st_clock_reads st)).

Definition console_error (msg : string) : Eff unit :=
  modify (fun st =>
    mkState (st_messages st) (st_input st) (st_isLoading st)
            (st_toasts st) (st_console st ++ [msg]) (st_clock_reads st)).

Definition exn_message (e : exn) : string :=
  match e with Error m => m end.

Section Handlers.

(** [String.prototype.trim] of the runtime. *)
Variable trim : string -> string.

(** [new Date().toLocaleTimeString()]: the text the [n]-th reading of
    the clock yields. *)
Variable clock : nat -> string.

Definition now : Eff string :=
  fun st =>
    (mkState (st_messages st) (st_input st) (st_isLoading st)
             (st_toasts st) (st_console st) (S (st_clock_reads st)),
     inr (clock (st_clock_reads st))).

Definition greeting : string :=
  "¡Hola! Soy tu asistente de reservaciones. Pregúntame por horarios, disponibilidad o deja que te ayude a crear una reserva.".

Definition greeting_offline : string :=
  "¡Hola! Soy tu asistente de reservaciones. Tu backend de chat parece no estar disponible, pero igual puedes escribir y revisamos.".

(** [data.history.map((m, idx) => ({ id: idx + 1, ... }))], the clock
    being read once per element. *)
Fixpoint map_history (idx : nat) (h : list BackendHistoryItem) : Eff (list Message) :=
  match h with
  | [] => ret []
  | m :: h' =>
      t <- now ;;
      rest <- map_history (S idx) h' ;;
      ret (mkMessage (idx + 1) (item_role m) (item_content m) t :: rest)
  end.

Definition loadHistory (fetched : settled (Response ChatHistoryResponse)) : Eff unit :=
  setIsLoading true ;;
  try_catch_finally
    (res <- await fetched ;;
     if negb (ok res) then
       (if negb (status res =? 404)%nat then
          body <- await (text res) ;;
          console_error ("Error al cargar historial: " +:+ body)
        else ret tt) ;;
       t <- now ;;
       setMessages (fun _ => [mkMessage 1 assistant greeting t])
     else
       data <- await (json res) ;;
       mapped <- map_history 0 (history data) ;;
       (if (length mapped =? 0)%nat then
          t <- now ;;
          setMessages (fun _ => mapped ++ [mkMessage 1 assistant greeting t])
        else
          setMessages (fun _ => mapped)))
    (fun err =>
       console_error (exn_message err) ;;
       toast_error "No pude cargar el historial de chat." ;;
       t <- now ;;
       setMessages (fun _ => [mkMessage 1 assistant greeting_offline t]))
    (setIsLoading false).

(** The [info] array of [handleSendMessage], one entry pushed per
    pending flag that is set. *)
Definition pending_info (data : ChatResponse) : list string :=
  (if pending_reservation data
   then ["tengo una reservación pendiente de confirmar"] else []) ++
  (if pending_update data
   then ["hay una actualización pendiente de reservación"] else []) ++
  (if pending_cancel data
   then ["hay una cancelación pendiente de confirmar"] else []).

Definition note_content (data : ChatResponse) : string :=
  "Nota interna: " +:+ join ", " (pending_info data) +:+
  ". Completa el flujo desde el WhatsApp/UX correspondiente.".

Definition try_again : string :=
  "Hubo un problema al conectar con el servidor de chat. Intenta de nuevo en unos momentos.".

(** [handleSendMessage], for the [messages] and [input] its closure
    captured at render time and a backend answering the posted
    request. *)
Definition handleSendMessage
    (messages : list Message) (input : string)
    (backend : ChatRequest -> settled (Response ChatResponse)) : Eff unit :=
  if negb (truthy (trim input)) then ret tt
  else
    t0 <- now ;;
    let userMessage := mkMessage (length messages + 1) user input t0 in
    setMessages (fun prev => prev ++ [userMessage]) ;;
    let prompt := input in
    setInput "" ;;
    setIsLoading true ;;
    try_catch_finally
      (res <- await (backend (mkChatRequest prompt DASHBOARD_CUSTOMER_ID)) ;;
       (if negb (ok res) then
          body <- await (text res) ;;
          throw (Error (or_else body ("Error HTTP " +:+ string_of_nat (status res))))
        else ret tt) ;;
       data <- await (json res) ;;
       t1 <- now ;;
       let assistantMessage :=
         mkMessage (id userMessage + 1) assistant (response data) t1 in
       setMessages (fun prev => prev ++ [assistantMessage]) ;;
       if pending_reservation data || pending_update data || pending_cancel data
       then
         t2 <- now ;;
         let metaMessage :=
           mkMessage (id assistantMessage + 1) assistant (note_content data) t2 in
         setMessages (fun prev => prev ++ [metaMessage])
       else ret tt)
      (fun err =>
         console_error (exn_message err) ;;
         toast_error "Error al enviar el mensaje al backend." ;;
         t <- now ;;
         let errorMessage :=
           mkMessage (length messages + 2) assistant try_again t in
         setMessages (fun prev => prev ++ [errorMessage]))
      (setIsLoading false).

End Handlers.

(** The call to the chat backend failed: [fetch] rejected (a network
    error) or the response is not OK. *)
Definition call_failed (r : settled (Response ChatResponse)) : bool :=
  match r with
  | inl _ => true
  | inr res => negb (ok res)
  end.

(** What a rendered message shows of a turn. *)
Definition shown (m : Message) : Role * string := (role m, content m).

Definition returned (h : BackendHistoryItem) : Role * string :=
  (item_role h, item_content h).

End Chat.

(** ** Concrete runs of the chat page *)

Module ChatRuns.
Import JS Chat.

Definition clock (n : nat) : string := "10:0" +:+ string_of_nat n.

Definition idle : State := mkState [] "hola" false [] [] 0.

Definition reply_pending : ChatResponse :=
  mkChatResponse "Claro, para cuantas personas?" "reservation"
                 true false false rd_null DASHBOARD_CUSTOMER_ID.

Definition answering (_ : ChatRequest) : settled (Response ChatResponse) :=
  inr (mkResponse true 200 (inr "") (inr reply_pending)).

Definition unavailable (_ : ChatRequest) : settled (Response ChatResponse) :=
  inr (mkResponse false 503 (inr "Service Unavailable") (inl (Error "no body"))).

Definition stored : ChatHistoryResponse :=
  mkHistoryResponse DASHBOARD_CUSTOMER_ID
    [mkHistoryItem user "hola"; mkHistoryItem assistant "Hola, en que te ayudo?";
     mkHistoryItem user "quiero reservar"].

Definition history_answer : Response ChatHistoryResponse :=
  mkResponse true 200 (inr "") (inr stored).

End ChatRuns.

(* ===================================================================== *)
(** * The reservations page *)
(* ===================================================================== *)

Module Reservations.

(** [status] and [guests] are read with [?.] and [??], so they may be
    missing in what the endpoint returns. *)
Record Reservation : Type := mkReservation {
  id : nat;
  customer_id : nat;
  date : string;
  time : string;
  guests : option float;
  status : option string;
  name : option string;
  phone : option string;
  notes : option string;
  table_number : option string
}.

Section Counters.

(** [String.prototype.toLowerCase] of the runtime. *)
Variable toLowerCase : string -> string.

(** [r.status?.toLowerCase() === lit]. *)
Definition status_is (lit : string) (r : Reservation) : bool :=
  match status r with
  | Some s => String.eqb (toLowerCase s) lit
  | None => false
  end.

Definition totalReservations (reservations : list Reservation) : nat :=
  length reservations.

Definition confirmedCount (reservations : list Reservation) : nat :=
  length (List.filter (status_is "confirmed") reservations).

Definition pendingCount (reservations : list Reservation) : nat :=
  length (List.filter (status_is "pending") reservations).

Definition totalGuests (reservations : list Reservation) : float :=
  fold_left (fun acc r => (acc + default 0 (guests r))%float) reservations 0%float.

End Counters.

(** The status of a reservation in lower case, when it has one. *)
Definition lowered (toLowerCase : string -> string) (r : Reservation) : option string :=
  toLowerCase <$> status r.

End Reservations.

(* ===================================================================== *)
(** * The menu page *)
(* ===================================================================== *)

Module Menu.
Import JS.

Record MenuItem : Type := mkMenuItem {
  id : string;
  name : string;
  description : string;
  price : float;
  category : string;
  available : bool
}.

Section Filter.

Variable toLowerCase : string -> string.

Definition matchesSearch (searchQuery : string) (item : MenuItem) : bool :=
  includes (toLowerCase (name item)) (toLowerCase searchQuery) ||
  includes (toLowerCase (description item)) (toLowerCase searchQuery).

Definition matchesCategory (selectedCategory : string) (item : MenuItem) : bool :=
  String.eqb selectedCategory "Todos" || String.eqb (category item) selectedCategory.

Definition filteredItems
    (menuItems : list MenuItem) (searchQuery selectedCategory : string) : list MenuItem :=
  List.filter
    (fun item => matchesSearch searchQuery item && matchesCategory selectedCategory item)
    menuItems.

End Filter.

(** [q] occurs in [s]: [s] is [q] with something before and after. *)
Definition occurs_in (q s : string) : Prop :=
  exists before after, s = before +:+ q +:+ after.

End Menu.

(* ===================================================================== *)
(** * The CRM page *)
(* ===================================================================== *)

Module CRM.
Import JS.

Record Customer : Type := mkCustomer {
  customer_id : nat;
  name : string;
  email : option string;
  whatsapp : option string;
  birth_date : option string;
  visits_count : float;
  last_visit : option string;
  average_ticket : float;
  preferences : list string;
  allergies : list string
}.

Definition totalCustomers (customers : list Customer) : nat := length customers.

Definition totalVisits (customers : list Customer) : float :=
  fold_left (fun acc c => (acc + visits_count c)%float) customers 0%float.

(** [customers.reduce((acc, c) => acc + c.average_ticket, 0)]. *)
Definition ticket_total (customers : list Customer) : float :=
  fold_left (fun acc c => (acc + average_ticket c)%float) customers 0%float.

Definition avgTicketGlobal (customers : list Customer) : float :=
  if (0 <? length customers)%nat
  then (ticket_total customers / number_of_nat (length customers))%float
  else 0%float.

Definition customersWithAllergies (customers : list Customer) : nat :=
  length (List.filter (fun c => (0 <? length (allergies c))%nat) customers).

End CRM.

Module CRMRuns.

Definition regulars : list CRM.Customer :=
  [CRM.mkCustomer 1 "Ana" None None None 3%float None 250.5%float [] [];
   CRM.mkCustomer 2 "Luis" None None None 1%float None 349.5%float [] ["nuez"]].

End CRMRuns.

(** ** Numbers that are integers *)

Module Numbers.

(** The number [x] is finite and positive and its value is exactly the
    integer [n]: its mantissa is [n] shifted left by as many places as its
    exponent is below zero. *)
Definition denotes (n : Z) (x : float) : Prop :=
  exists (m : positive) (k : Z),
    Prim2SF x = S754_finite false m (- k) /\ (0 <= k)%Z /\ Zpos m = (n * 2 ^ k)%Z.

End Numbers.

(* ===================================================================== *)
(** * The conversational core *)
(* ===================================================================== *)

(** The orchestrator, the pending-action tracker and the tool executor are
    code of the Python backend ([backend/src/core]); the pages above are
    their callers. They are modelled here from the specification. *)

Module Core.

(** Modelled from the spec: the kind of a PendingAction, the backend's
    type being absent: create, update or cancel. *)
Inductive Kind : Type := create | update | cancel.

(** Modelled from the spec: the status of a Reservation: pending,
    confirmed or cancelled. *)
Inductive Status : Type := pending | confirmed | cancelled.

(** Modelled from the spec: the Reservation of the data model, the
    backend's record being absent: identifier, customer reference, date,
    time, party size, status, optional table assignment, optional
    notes. *)
Record Reservation : Type := mkReservation {
  r_id : nat;
  r_customer : string;
  r_date : string;
  r_time : string;
  r_party : nat;
  r_status : Status;
  r_table : option string;
  r_notes : option string
}.

(** Modelled from the spec: the reservation draft of a PendingAction, a
    mapping of slot name to value filled incrementally; the slots are
    date, time, party size and target reservation id, with the optional
    table and notes of a reservation. *)
Record Draft : Type := mkDraft {
  d_date : option string;
  d_time : option string;
  d_party : option nat;
  d_target : option nat;
  d_table : option string;
  d_notes : option string
}.

(** Modelled from the spec: the slot merge of the tracker, later values
    for the same slot overwriting earlier ones. *)
Definition later {A} (new old : option A) : option A :=
  match new with Some v => Some v | None => old end.

(** Modelled from the spec: new slot values merged into the existing
    draft (last write wins). *)
Definition merge (old new : Draft) : Draft :=
  mkDraft (later (d_date new) (d_date old)) (later (d_time new) (d_time old))
          (later (d_party new) (d_party old)) (later (d_target new) (d_target old))
          (later (d_table new) (d_table old)) (later (d_notes new) (d_notes old)).

(** Modelled from the spec: the "changed fields" an update requires: at
    least one slot other than the target id is filled. *)
Definition changes_something (d : Draft) : bool :=
  bool_decide (is_Some (d_date d)) || bool_decide (is_Some (d_time d)) ||
  bool_decide (is_Some (d_party d)) || bool_decide (is_Some (d_table d)) ||
  bool_decide (is_Some (d_notes d)).

(** Modelled from the spec: the required slots of each action kind:
    date, time and party size for create; target id and changed fields
    for update; target id for cancel. *)
Definition complete (k : Kind) (d : Draft) : bool :=
  match k with
  | create =>
      bool_decide (is_Some (d_date d)) && bool_decide (is_Some (d_time d)) &&
      bool_decide (is_Some (d_party d))
  | update => bool_decide (is_Some (d_target d)) && changes_something d
  | cancel => bool_decide (is_Some (d_target d))
  end.

(** Modelled from the spec: the PendingAction of the data model. *)
Record PendingAction : Type := mkPending {
  pa_customer : string;
  pa_kind : Kind;
  pa_draft : Draft;
  pa_created : nat;
  pa_expiry : nat
}.

(** Modelled from the spec: the states of the per-customer tracker, a
    single slot: none, collecting, or awaiting confirmation with the
    action token assigned on entering that state. *)
Inductive Tracker : Type :=
| none
| collecting (pa : PendingAction)
| awaiting_confirmation (pa : PendingAction) (token : nat).

(** Modelled from the spec: a turn of the SessionHistory: role, text,
    timestamp. *)
Inductive TurnRole : Type := from_user | from_assistant.

(** Modelled from the spec: a turn of the SessionHistory (see
    [TurnRole]). *)
Record Turn : Type := mkTurn {
  t_role : TurnRole;
  t_text : string;
  t_time : nat
}.

(** Modelled from the spec: a pending action as the Conversation Session
    Store keeps it: the PendingAction, which carries its customer
    reference, and its action token once it awaits confirmation. *)
Record Stored : Type := mkStored {
  s_action : PendingAction;
  s_token : option nat
}.

(** Modelled from the spec: the Conversation Session Store, the
    orchestrator's only mutable shared state: the history of each
    customer and the pending actions in flight. *)
Record SessionStore : Type := mkStore {
  histories : gmap string (list Turn);
  pendings : list Stored
}.

(** Modelled from the spec: the store before any turn. *)
Definition empty_store : SessionStore := mkStore ∅ [].

(** Modelled from the spec: the customer reference of a stored pending
    action is the given customer. *)
Definition belongs (customer : string) (s : Stored) : bool :=
  String.eqb (pa_customer (s_action s)) customer.

(** Modelled from the spec: the pending actions of a customer that exist
    at an observation point. *)
Definition pending_of (customer : string) (store : SessionStore) : list Stored :=
  List.filter (belongs customer) (pendings store).

(** Modelled from the spec: the invariant of the data model: at most one
    PendingAction per customer. *)
Definition single_slot (store : SessionStore) : Prop :=
  forall customer, length (pending_of customer store) <= 1.

(** Modelled from the spec: the history of a customer, empty for a
    customer not heard of yet. *)
Definition history_of (customer : string) (store : SessionStore) : list Turn :=
  default [] (histories store !! customer).

(** Modelled from the spec: a stored pending action, or none, as a state
    of the tracker, and back. *)
Definition as_tracker (o : option Stored) : Tracker :=
  match o with
  | None => none
  | Some s =>
      match s_token s with
      | None => collecting (s_action s)
      | Some token => awaiting_confirmation (s_action s) token
      end
  end.

Definition as_stored (t : Tracker) : list Stored :=
  match t with
  | none => []
  | collecting pa => [mkStored pa None]
  | awaiting_confirmation pa token => [mkStored pa (Some token)]
  end.

(** Modelled from the spec: the pending action of a tracker state, if
    any, refers to the customer. *)
Definition owned (customer : string) (t : Tracker) : Prop :=
  Forall (fun s => belongs customer s = true) (as_stored t).

(** Modelled from the spec: [load(customer) -> (history, pending)]. *)
Definition load (customer : string) (store : SessionStore) : list Turn * Tracker :=
  (history_of customer store, as_tracker (List.find (belongs customer) (pendings store))).

(** Modelled from the spec: [append(customer, turn)]. *)
Definition append (customer : string) (turn : Turn) (store : SessionStore) : SessionStore :=
  mkStore (<[customer := history_of customer store ++ [turn]]> (histories store))
          (pendings store).

(** Modelled from the spec: [save_pending(customer, pending|none)]: what
    was kept for the customer is replaced by the given state. *)
Definition save_pending (customer : string) (t : Tracker) (store : SessionStore)
    : SessionStore :=
  mkStore (histories store)
          (List.filter (fun s => negb (belongs customer s)) (pendings store) ++ as_stored t).

(** Modelled from the spec: [ExecutionResult{reservation,
    calendar_event_id}] of the executor's contract; a reservation that no
    event mirrors has no event id. *)
Record ExecutionResult : Type := mkResult {
  reservation : Reservation;
  calendar_event_id : option nat
}.

(** Modelled from the spec: the failures of the executor: the store's
    not-found and conflict, the calendar's failure, and a draft that
    lacks a required slot. *)
Inductive ExecutionError : Type :=
| not_found
| conflict
| calendar_sync_failure
| slot_incomplete.

(** Modelled from the spec: the calls of the Calendar Adapter's
    interface: [create_event], [update_event], [delete_event]. *)
Inductive CalendarCall : Type :=
| create_event (r : Reservation)
| update_event (event_id : nat) (r : Reservation)
| delete_event (event_id : nat).

(** Modelled from the spec: what the executor works on. The
    Reservation Store as a finite map from identifier to reservation;
    the Calendar Adapter, an external collaborator, as the calls sent
    to it together with the event each reservation is mirrored by; and
    the results of the confirmation tokens already executed. *)
Record World : Type := mkWorld {
  store : gmap nat Reservation;
  events : gmap nat nat;
  calendar_log : list CalendarCall;
  executed : gmap nat ExecutionResult;
  next_token : nat
}.

Section Executor.

(** Modelled from the spec: the Reservation Store rejecting a mutation
    with a conflict (for instance a double-booked slot), which depends
    on what it holds. *)
Variable store_rejects : gmap nat Reservation -> Kind -> Draft -> bool.

(** Modelled from the spec: the Calendar Adapter answering a call, given
    the calls before it: the event id on success, nothing on failure. *)
Variable calendar : list CalendarCall -> CalendarCall -> option nat.

(** Modelled from the spec: the store's [update(id, fields)]: the filled
    slots of the draft replace the fields of the reservation. *)
Definition apply_fields (d : Draft) (r : Reservation) : Reservation :=
  mkReservation (r_id r) (r_customer r)
    (default (r_date r) (d_date d)) (default (r_time r) (d_time d))
    (default (r_party r) (d_party d)) (r_status r)
    (later (d_table d) (r_table r)) (later (d_notes d) (r_notes r)).

(** Modelled from the spec: a reservation with its status set, as the
    store's [cancel(id)] and its reversal do. *)
Definition with_status (s : Status) (r : Reservation) : Reservation :=
  mkReservation (r_id r) (r_customer r) (r_date r) (r_time r) (r_party r)
    s (r_table r) (r_notes r).

(** Modelled from the spec: the compensating action after a failed
    create: delete the just-created reservation. *)
Definition store_delete (i : nat) (st : gmap nat Reservation) : gmap nat Reservation :=
  delete i st.

(** Modelled from the spec: the compensating action after a failed
    update or cancel: put the prior reservation back. *)
Definition store_restore (i : nat) (prior : Reservation) (st : gmap nat Reservation)
    : gmap nat Reservation :=
  <[i := prior]> st.

(** Modelled from the spec: [execute] for kind create. The storage
    mutation comes first, the calendar mutation second; when the
    calendar step fails the just-created reservation is deleted. *)
Definition execute_create (d : Draft) (customer : string) (w : World)
    : World * (ExecutionError + ExecutionResult) :=
  match d_date d, d_time d, d_party d with
  | Some date, Some time, Some party =>
      if store_rejects (store w) create d then (w, inl conflict)
      else
        let i := fresh (dom (store w)) in
        let r := mkReservation i customer date time party confirmed
                               (d_table d) (d_notes d) in
        let st1 := <[i := r]> (store w) in
        let call := create_event r in
        match calendar (calendar_log w) call with
        | Some ev =>
            (mkWorld st1 (<[i := ev]> (events w)) (calendar_log w ++ [call])
                     (executed w) (next_token w),
             inr (mkResult r (Some ev)))
        | None =>
            (mkWorld (store_delete i st1) (events w) (calendar_log w ++ [call])
                     (executed w) (next_token w),
             inl calendar_sync_failure)
        end
  | _, _, _ => (w, inl slot_incomplete)
  end.

(** Modelled from the spec: [execute] for kind update; a failed
    calendar step restores the prior field values. A reservation that
    no event mirrors has no calendar step. *)
Definition execute_update (d : Draft) (w : World)
    : World * (ExecutionError + ExecutionResult) :=
  match d_target d with
  | None => (w, inl slot_incomplete)
  | Some i =>
      match store w !! i with
      | None => (w, inl not_found)
      | Some prior =>
          if store_rejects (store w) update d then (w, inl conflict)
          else
            let r := apply_fields d prior in
            let st1 := <[i := r]> (store w) in
            match events w !! i with
            | None =>
                (mkWorld st1 (events w) (calendar_log w) (executed w) (next_token w),
                 inr (mkResult r None))
            | Some ev =>
                let call := update_event ev r in
                match calendar (calendar_log w) call with
                | Some _ =>
                    (mkWorld st1 (events w) (calendar_log w ++ [call])
                             (executed w) (next_token w),
                     inr (mkResult r (Some ev)))
                | None =>
                    (mkWorld (store_restore i prior st1) (events w)
                             (calendar_log w ++ [call]) (executed w) (next_token w),
                     inl calendar_sync_failure)
                end
            end
      end
  end.

(** Modelled from the spec: [execute] for kind cancel; cancelling an
    already cancelled reservation is a success that changes nothing,
    and a failed calendar step restores the prior status. *)
Definition execute_cancel (d : Draft) (w : World)
    : World * (ExecutionError + ExecutionResult) :=
  match d_target d with
  | None => (w, inl slot_incomplete)
  | Some i =>
      match store w !! i with
      | None => (w, inl not_found)
      | Some prior =>
          match r_status prior with
          | cancelled => (w, inr (mkResult prior (events w !! i)))
          | _ =>
              let r := with_status cancelled prior in
              let st1 := <[i := r]> (store w) in
              match events w !! i with
              | None =>
                  (mkWorld st1 (events w) (calendar_log w) (executed w) (next_token w),
                   inr (mkResult r None))
              | Some ev =>
                  let call := delete_event ev in
                  match calendar (calendar_log w) call with
                  | Some _ =>
                      (mkWorld st1 (delete i (events w)) (calendar_log w ++ [call])
                               (executed w) (next_token w),
                       inr (mkResult r None))
                  | None =>
                      (mkWorld (store_restore i (with_status (r_status prior) r) st1) (events w)
                               (calendar_log w ++ [call]) (executed w) (next_token w),
                       inl calendar_sync_failure)
                  end
              end
          end
      end
  end.

(** Modelled from the spec: the contract
    [execute(kind, draft, customer) -> ExecutionResult | ExecutionError]. *)
Definition execute (k : Kind) (d : Draft) (customer : string) (w : World)
    : World * (ExecutionError + ExecutionResult) :=
  match k with
  | create => execute_create d customer w
  | update => execute_update d w
  | cancel => execute_cancel d w
  end.

(** Modelled from the spec: the idempotent entry of the executor. A
    request bearing a token already marked executed changes nothing
    and returns the previous result; a successful execution marks its
    token. *)
Definition execute_confirmed
    (token : nat) (k : Kind) (d : Draft) (customer : string) (w : World)
    : World * (ExecutionError + ExecutionResult) :=
  match executed w !! token with
  | Some previous => (w, inr previous)
  | None =>
      match execute k d customer w with
      | (w', inr res) =>
          (mkWorld (store w') (events w') (calendar_log w')
                   (<[token := res]> (executed w')) (next_token w'),
           inr res)
      | (w', inl e) => (w', inl e)
      end
  end.

End Executor.

(** Modelled from the spec: the routes of the Intent Router when no
    action is pending. *)
Inductive Route : Type :=
| small_talk
| menu_query
| create_reservation
| update_reservation
| cancel_reservation
| escalate_to_human.

(** Modelled from the spec: how the router reads a message while an
    action is pending. *)
Inductive PendingReply : Type :=
| confirm
| deny
| amend_slot (slots : Draft)
| unrelated (r : Route).

(** Modelled from the spec: the typed RouteDecision of the Intent
    Router, with the slots extracted from the message. *)
Inductive RouteDecision : Type :=
| on_pending (reply : PendingReply)
| on_idle (r : Route) (slots : Draft).

(** Modelled from the spec: the action kind a reservation-mutating route
    opens; the other routes are non-mutating. *)
Definition mutation_of (r : Route) : option Kind :=
  match r with
  | create_reservation => Some create
  | update_reservation => Some update
  | cancel_reservation => Some cancel
  | small_talk | menu_query | escalate_to_human => None
  end.

(** Modelled from the spec: the [reservation_data] echoed by a turn: the
    current draft, or the reservation an execution returned. *)
Inductive Snapshot : Type :=
| of_draft (d : Draft)
| of_reservation (r : Reservation).

(** Modelled from the spec: the Turn Result: reply text, route taken,
    the three pending flags and an optional echo of reservation_data. *)
Record TurnResult : Type := mkTurnResult {
  reply : string;
  route : string;
  pending_reservation : bool;
  pending_update : bool;
  pending_cancel : bool;
  reservation_data : option Snapshot
}.

(** Modelled from the spec: two action kinds are the same. *)
Definition kind_eqb (a b : Kind) : bool :=
  match a, b with
  | create, create | update, update | cancel, cancel => true
  | _, _ => false
  end.

(** Modelled from the spec: step 7 of the orchestrator: a flag is true
    iff the customer's pending state after the turn is not none and an
    action of its kind is pending. *)
Definition flag (k : Kind) (customer : string) (store : SessionStore) : bool :=
  existsb (fun s => kind_eqb (pa_kind (s_action s)) k) (pending_of customer store).

(** Modelled from the spec: the optional echo of reservation_data in a
    turn result. *)
Definition snapshot (t : Tracker) (outcome : option (ExecutionError + ExecutionResult))
    : option Snapshot :=
  match outcome with
  | Some (inr res) => Some (of_reservation (reservation res))
  | _ =>
      match t with
      | none => None
      | collecting pa => Some (of_draft (pa_draft pa))
      | awaiting_confirmation pa _ => Some (of_draft (pa_draft pa))
      end
  end.

Section Orchestrator.

Variable store_rejects : gmap nat Reservation -> Kind -> Draft -> bool.
Variable calendar : list CalendarCall -> CalendarCall -> option nat.

(** Modelled from the spec: the configurable time to live of a pending
    action. *)
Variable ttl : nat.

(** Modelled from the spec: the Classifier capability behind the Intent
    Router. *)
Variable classify : string -> list Turn -> Tracker -> RouteDecision.

(** Modelled from the spec: the wording of replies and the label of a
    route, both left open by the spec. *)
Variable compose_reply :
  bool -> RouteDecision -> Tracker -> option (ExecutionError + ExecutionResult) -> string.
Variable label : RouteDecision -> string.

(** Modelled from the spec: the expiry transition, checked at the
    start of every turn: a state older than its time to live becomes
    none. *)
Definition expire (now : nat) (t : Tracker) : Tracker * bool :=
  match t with
  | none => (none, false)
  | collecting pa =>
      if (pa_expiry pa <? now)%nat then (none, true) else (t, false)
  | awaiting_confirmation pa _ =>
      if (pa_expiry pa <? now)%nat then (none, true) else (t, false)
  end.

(** Modelled from the spec: entering collecting, or awaiting
    confirmation once every required slot is present, a fresh token
    being assigned on the way. *)
Definition enter (customer : string) (k : Kind) (d : Draft) (created now : nat)
    (w : World) : World * Tracker :=
  let pa := mkPending customer k d created (now + ttl) in
  if complete k d
  then (mkWorld (store w) (events w) (calendar_log w) (executed w) (S (next_token w)),
        awaiting_confirmation pa (next_token w))
  else (w, collecting pa).

(** Modelled from the spec: steps 3 to 5 of the orchestrator. *)
Definition resolve (customer : string) (now : nat) (t : Tracker) (dec : RouteDecision)
    (w : World) : World * Tracker * option (ExecutionError + ExecutionResult) :=
  match t, dec with
  | awaiting_confirmation pa token, on_pending confirm =>
      match execute_confirmed store_rejects calendar token
                              (pa_kind pa) (pa_draft pa) customer w with
      | (w', inr res) => (w', none, Some (inr res))
      | (w', inl e) => (w', t, Some (inl e))
      end
  | collecting _, on_pending confirm => (w, t, None)
  | collecting _, on_pending deny => (w, none, None)
  | awaiting_confirmation _ _, on_pending deny => (w, none, None)
  | collecting pa, on_pending (amend_slot s) =>
      let '(w', t') :=
        enter customer (pa_kind pa) (merge (pa_draft pa) s) (pa_created pa) now w in
      (w', t', None)
  | awaiting_confirmation pa _, on_pending (amend_slot s) =>
      let '(w', t') :=
        enter customer (pa_kind pa) (merge (pa_draft pa) s) (pa_created pa) now w in
      (w', t', None)
  | _, on_pending (unrelated _) => (w, t, None)
  | none, on_idle r s =>
      match mutation_of r with
      | Some k => let '(w', t') := enter customer k s now now w in (w', t', None)
      | None => (w, none, None)
      end
  | none, on_pending _ => (w, none, None)
  | _, on_idle _ _ => (w, t, None)
  end.

(** Modelled from the spec: [handle_turn(customer_id, message)]: load
    the session and expire a stale pending action, route, resolve,
    append the user turn and the assistant turn, persist the pending
    state, and return the turn result with the flags of the state
    persisted. *)
Definition handle_turn (customer message : string) (now : nat)
    (store : SessionStore) (w : World) : SessionStore * World * TurnResult :=
  let '(history, kept) := load customer store in
  let '(t1, timed_out) := expire now kept in
  let dec := classify message history t1 in
  let '(w', t2, outcome) := resolve customer now t1 dec w in
  let text := compose_reply timed_out dec t2 outcome in
  let store' :=
    save_pending customer t2
      (append customer (mkTurn from_assistant text now)
         (append customer (mkTurn from_user message now) store)) in
  (store', w',
   mkTurnResult text (label dec)
                (flag create customer store') (flag update customer store')
                (flag cancel customer store') (snapshot t2 outcome)).

(** Modelled from the spec: a sequence of turns, each message with its
    customer and its time, and the turn results it yields. *)
Fixpoint handle_turns (msgs : list (string * string * nat))
    (store : SessionStore) (w : World)
    : SessionStore * World * list TurnResult :=
  match msgs with
  | [] => (store, w, [])
  | (customer, message, now) :: rest =>
      let '(store', w', res) := handle_turn customer message now store w in
      let '(store'', w'', results) := handle_turns rest store' w' in
      (store'', w'', res :: results)
  end.

End Orchestrator.

(** Modelled from the spec: the number of pending flags of a turn result
    that are true. *)
Definition flags_set (res : TurnResult) : nat :=
  Nat.b2n (pending_reservation res) + Nat.b2n (pending_update res) +
  Nat.b2n (pending_cancel res).

End Core.

(** ** Concrete runs of the core *)

Module CoreRuns.
Import Core.

Definition never_rejects (_ : gmap nat Reservation) (_ : Kind) (_ : Draft) : bool := false.

Definition calendar_up (log : list CalendarCall) (_ : CalendarCall) : option nat :=
  Some (100 + length log).

Definition calendar_down (_ : list CalendarCall) (_ : CalendarCall) : option nat := None.

Definition table_for_four : Draft :=
  mkDraft (Some "2025-11-14") (Some "20:00") (Some 4) None None None.

Definition booked : Reservation :=
  mkReservation 7 "ana" "2025-11-14" "20:00" 4 confirmed None None.

Definition empty_world : World := mkWorld ∅ ∅ [] ∅ 0.

Definition one_booking : World := mkWorld {[7 := booked]} {[7 := 107]} [] ∅ 0.

(** A classifier that opens a reservation for four when nothing is
    pending and reads any later message as the missing date and time. *)
Definition classify (_ : string) (_ : list Turn) (t : Tracker) : RouteDecision :=
  match t with
  | none => on_idle create_reservation (mkDraft None None (Some 4) None None None)
  | _ => on_pending (amend_slot (mkDraft (Some "2025-11-14") (Some "20:00")
                                         None None None None))
  end.

Definition compose_reply (_ : bool) (_ : RouteDecision) (t : Tracker)
    (_ : option (ExecutionError + ExecutionResult)) : string :=
  match t with
  | none => "Listo."
  | collecting _ => "Que dia y a que hora?"
  | awaiting_confirmation _ _ => "Confirmas la reservacion?"
  end.

Definition label (_ : RouteDecision) : string := "reservation".

Definition conversation : list (string * string * nat) :=
  [("ana", "quiero reservar para 4 personas", 0); ("ana", "el viernes a las 8pm", 1)].

End CoreRuns.

(* ===================================================================== *)
(** * Handlers of the other pages *)
(* ===================================================================== *)

(** The message ids of the chat page are the positions, counted from
    one. *)
Definition numbered (msgs : list Chat.Message) : Prop :=
  map Chat.id msgs = seq 1 (length msgs).

(** The state-and-exception monad of the chat page, for any component
    state, and the toasts of [sonner]. *)

Module Effects.
Import JS.

Inductive Toast : Type :=
| toast (msg : string)
| toast_success (msg : string)
| toast_error (msg : string).

Definition Eff (S A : Type) : Type := S -> S * settled A.

Definition ret {S A} (a : A) : Eff S A := fun st => (st, inr a).

Definition bind {S A B} (m : Eff S A) (k : A -> Eff S B) : Eff S B :=
  fun st =>
    match m st with
    | (st', inr a) => k a st'
    | (st', inl e) => (st', inl e)
    end.

Definition throw {S A} (e : exn) : Eff S A := fun st => (st, inl e).

Definition await {S A} (p : settled A) : Eff S A := fun st => (st, p).

Definition modify {S} (f : S -> S) : Eff S unit := fun st => (f st, inr tt).

Notation "x <- m ;; k" := (bind m (fun x => k))
  (at level 100, m at next level, right associativity).
Notation "m ;; k" := (bind m (fun _ => k))
  (at level 100, right associativity).

(** [try { body } catch (err) { handler } finally { fin }]; a [try]
    without [finally] has [ret tt] for [fin]. *)
Definition try_catch_finally {S}
    (body : Eff S unit) (handler : exn -> Eff S unit) (fin : Eff S unit) : Eff S unit :=
  fun st =>
    match body st with
    | (st1, inr _) => fin st1
    | (st1, inl e) =>
        match handler e st1 with
        | (st2, inr _) => fin st2
        | (st2, inl e') =>
            match fin st2 with
            | (st3, inr _) => (st3, inl e')
            | (st3, inl e'') => (st3, inl e'')
            end
        end
    end.

Definition run {S} (m : Eff S unit) (st : S) : S := fst (m st).

Definition exn_message (e : exn) : string :=
  match e with Error m => m end.

End Effects.

(* ===================================================================== *)
(** ** The analytics page *)
(* ===================================================================== *)

Module Analytics.
Import JS Effects.

(** [timestamp] is a [Date], here the instant it denotes. *)
Record AnalyticsMessage : Type := mkMessage {
  role : Chat.Role;
  content : string;
  timestamp : nat;
  hasChart : option bool;
  chartUrl : option string
}.

Record ManagerAskResponse : Type := mkAsk {
  text : string;
  plot_id : option string;
  plot_url : option string;
  error : option string
}.

Record State : Type := mkState {
  st_messages : list AnalyticsMessage;
  st_input : string;
  st_isLoading : bool;
  st_toasts : list Toast;
  st_console : list string;
  st_clock_reads : nat
}.

(** Truthiness of an optional string: missing and empty are falsy. *)
Definition truthy_opt (o : option string) : bool :=
  match o with
  | Some s => truthy s
  | None => false
  end.

Definition setMessages (f : list AnalyticsMessage -> list AnalyticsMessage) : Eff State unit :=
  modify (fun st =>
    mkState (f (st_messages st)) (st_input st) (st_isLoading st)
            (st_toasts st) (st_console st) (st_clock_reads st)).

Definition setInput (v : string) : Eff State unit :=
  modify (fun st =>
    mkState (st_messages st) v (st_isLoading st)
            (st_toasts st) (st_console st) (st_clock_reads st)).

Definition setIsLoading (v : bool) : Eff State unit :=
  modify (fun st =>
    mkState (st_messages st) (st_input st) v
            (st_toasts st) (st_console st) (st_clock_reads st)).

Definition show_toast (t : Toast) : Eff State unit :=
  modify (fun st =>
    mkState (st_messages st) (st_input st) (st_isLoading st)
            (st_toasts st ++ [t]) (st_console st) (st_clock_reads st)).

Definition console_error (msg : string) : Eff State unit :=
  modify (fun st =>
    mkState (st_messages st) (st_input st) (st_isLoading st)
            (st_toasts st) (st_console st ++ [msg]) (st_clock_reads st)).

Definition greeting : string :=
  "¡Hola! Soy tu asistente de analytics. Puedes preguntarme sobre revenue, SKUs, meseros y más. Ej: 'Top 10 SKUs por revenue para store_id=3'".

Definition no_text : string := "El agente no devolvió texto.".

Definition unreachable : string :=
  "Hubo un problema al conectar con /manager/ask. Verifica que el backend esté levantado.".

(** [data.error ? `Error: ${data.error}` : data.text || "El agente no
    devolvió texto."]. *)
Definition reply_content (data : ManagerAskResponse) : string :=
  if truthy_opt (error data)
  then "Error: " +:+ default "" (error data)
  else or_else (text data) no_text.

(** The condition under which a message is rendered with its chart:
    [message.hasChart && message.chartUrl]. *)
Definition chart_shown (m : AnalyticsMessage) : bool :=
  default false (hasChart m) && truthy_opt (chartUrl m).

Section Handlers.

Variable trim : string -> string.

(** [new Date()]: the instant the [n]-th reading of the clock yields. *)
Variable clock : nat -> nat.

Definition now : Eff State nat :=
  fun st =>
    (mkState (st_messages st) (st_input st) (st_isLoading st)
             (st_toasts st) (st_console st) (S (st_clock_reads st)),
     inr (clock (st_clock_reads st))).

(** The initial state of the component, the clock read once for the
    greeting. *)
Definition initial : State :=
  mkState [mkMessage Chat.assistant greeting (clock 0) None None] "" false [] [] 1.

(** [handleSend], for the [input] its closure captured and a backend
    answering the posted prompt. *)
Definition handleSend (input : string)
    (backend : string -> settled (Response ManagerAskResponse)) : Eff State unit :=
  if negb (truthy (trim input)) then ret tt
  else
    t0 <- now ;;
    let userMessage := mkMessage Chat.user input t0 None None in
    setMessages (fun prev => prev ++ [userMessage]) ;;
    let prompt := input in
    setInput "" ;;
    setIsLoading true ;;
    try_catch_finally
      (res <- await (backend prompt) ;;
       (if negb (ok res) then
          body <- await (JS.text res) ;;
          throw (Error (or_else body ("Error HTTP " +:+ string_of_nat (status res))))
        else ret tt) ;;
       data <- await (json res) ;;
       t1 <- now ;;
       let assistantMessage :=
         mkMessage Chat.assistant (reply_content data) t1
                   (Some (truthy_opt (plot_url data))) (plot_url data) in
       setMessages (fun prev => prev ++ [assistantMessage]))
      (fun err =>
         console_error (exn_message err) ;;
         show_toast (toast_error "Error al consultar el agente de analytics.") ;;
         t <- now ;;
         let errorMessage := mkMessage Chat.assistant unreachable t None None in
         setMessages (fun prev => prev ++ [errorMessage]))
      (setIsLoading false).

End Handlers.

End Analytics.

(* ===================================================================== *)
(** ** The search of the reservations page *)
(* ===================================================================== *)

Module ReservationsPage.
Import JS Effects.

Record State : Type := mkState {
  st_reservations : list Reservations.Reservation;
  st_searchCustomerId : string;
  st_loading : bool;
  st_error : option string;
  st_toasts : list Toast
}.

Definition setReservations (v : list Reservations.Reservation) : Eff State unit :=
  modify (fun st =>
    mkState v (st_searchCustomerId st) (st_loading st) (st_error st) (st_toasts st)).

Definition setLoading (v : bool) : Eff State unit :=
  modify (fun st =>
    mkState (st_reservations st) (st_searchCustomerId st) v (st_error st) (st_toasts st)).

Definition setError (v : option string) : Eff State unit :=
  modify (fun st =>
    mkState (st_reservations st) (st_searchCustomerId st) (st_loading st) v (st_toasts st)).

Definition show_toast (t : Toast) : Eff State unit :=
  modify (fun st =>
    mkState (st_reservations st) (st_searchCustomerId st) (st_loading st) (st_error st)
            (st_toasts st ++ [t])).

Definition fetch_failed : string := "No se pudieron obtener las reservaciones.".

Section Handlers.

Variable trim : string -> string.

(** [handleSearch], for the [searchCustomerId] its closure captured and
    a backend answering [GET /reservations/<id>]. Everything thrown in
    the pages is an [Error], so the [catch] block reads its message. *)
Definition handleSearch (searchCustomerId : string)
    (backend : string -> settled (Response (list Reservations.Reservation)))
    : Eff State unit :=
  if negb (truthy (trim searchCustomerId))
  then show_toast (toast_error "Ingresa un customer_id para buscar.")
  else
    try_catch_finally
      (setLoading true ;;
       setError None ;;
       response <- await (backend (trim searchCustomerId)) ;;
       (if negb (ok response) then throw (Error fetch_failed) else ret tt) ;;
       data <- await (json response) ;;
       setReservations data ;;
       if (length data =? 0)%nat
       then show_toast (toast "No se encontraron reservaciones para ese customer_id.")
       else show_toast (toast_success "Reservaciones cargadas correctamente."))
      (fun err =>
         let message := exn_message err in
         setError (Some message) ;;
         show_toast (toast_error message))
      (setLoading false).

End Handlers.

End ReservationsPage.

(* ===================================================================== *)
(** ** Loading the menu *)
(* ===================================================================== *)

Module MenuPage.
Import JS Effects.

(** A price or a SKU as the search endpoint may send it: a number or a
    text. *)
Inductive Scalar : Type :=
| num (x : float)
| str (s : string).

(** The keys [mapResultToItem] reads of [metadata], each possibly
    missing (or [null]); the texts are strings, [is_active] a boolean. *)
Record Metadata : Type := mkMetadata {
  m_name : option string;
  m_nombre : option string;
  m_description : option string;
  m_descripcion : option string;
  m_price : option Scalar;
  m_precio : option Scalar;
  m_category : option string;
  m_categoria : option string;
  m_sku : option Scalar;
  m_is_active : option bool
}.

(** The object [{}]. *)
Definition no_metadata : Metadata :=
  mkMetadata None None None None None None None None None None.

Record MenuSearchResult : Type := mkResult {
  content : string;
  category : option string;
  metadata : option Metadata
}.

Record SearchRequest : Type := mkRequest {
  query : string;
  limit : nat
}.

Record SearchResponse : Type := mkSearchResponse {
  resp_query : string;
  results : option (list MenuSearchResult)
}.

(** [data.categories], when it is an array. *)
Record CategoriesResponse : Type := mkCategories {
  categories : option (list string)
}.

Record State : Type := mkState {
  st_menuItems : list Menu.MenuItem;
  st_searchQuery : string;
  st_selectedCategory : string;
  st_categories : list string;
  st_isLoading : bool;
  st_toasts : list Toast;
  st_console : list string
}.

(** The state the component starts in. *)
Definition initial : State := mkState [] "" "Todos" ["Todos"] false [] [].

Definition setMenuItems (v : list Menu.MenuItem) : Eff State unit :=
  modify (fun st =>
    mkState v (st_searchQuery st) (st_selectedCategory st) (st_categories st)
            (st_isLoading st) (st_toasts st) (st_console st)).

Definition setCategories (v : list string) : Eff State unit :=
  modify (fun st =>
    mkState (st_menuItems st) (st_searchQuery st) (st_selectedCategory st) v
            (st_isLoading st) (st_toasts st) (st_console st)).

Definition setIsLoading (v : bool) : Eff State unit :=
  modify (fun st =>
    mkState (st_menuItems st) (st_searchQuery st) (st_selectedCategory st)
            (st_categories st) v (st_toasts st) (st_console st)).

Definition show_toast (t : Toast) : Eff State unit :=
  modify (fun st =>
    mkState (st_menuItems st) (st_searchQuery st) (st_selectedCategory st)
            (st_categories st) (st_isLoading st) (st_toasts st ++ [t]) (st_console st)).

Definition console_error (msg : string) : Eff State unit :=
  modify (fun st =>
    mkState (st_menuItems st) (st_searchQuery st) (st_selectedCategory st)
            (st_categories st) (st_isLoading st) (st_toasts st) (st_console st ++ [msg])).

(** [a || b] for a possibly missing string [a]. *)
Definition or_text (a : option string) (b : string) : string :=
  match a with
  | Some s => or_else s b
  | None => b
  end.

(** [a ?? b]. *)
Definition nullish {A} (a : option A) (b : A) : A :=
  match a with
  | Some v => v
  | None => b
  end.

(** Truthiness of a number: neither zero nor NaN. *)
Definition truthy_number (x : float) : bool :=
  negb (PrimFloat.eqb x 0) && negb (PrimFloat.is_nan x).

Section Mapping.

(** [parseFloat] and the conversion of a number to a string, of the
    runtime. *)
Variable parseFloat : string -> float.
Variable String_of_number : float -> string.

(** [String(meta.sku || index)]. *)
Definition item_id (sku : option Scalar) (index : nat) : string :=
  match sku with
  | Some (num x) => if truthy_number x then String_of_number x else string_of_nat index
  | Some (str s) => if truthy s then s else string_of_nat index
  | None => string_of_nat index
  end.

Definition mapResultToItem (result : MenuSearchResult) (index : nat) : Menu.MenuItem :=
  let meta := nullish (metadata result) no_metadata in
  let name :=
    or_text (m_name meta) (or_text (m_nombre meta) (or_else (content result) "Sin nombre")) in
  let description :=
    or_text (m_description meta) (or_text (m_descripcion meta) (or_else (content result) "")) in
  let priceRaw := nullish (m_price meta) (nullish (m_precio meta) (num 0)) in
  let price :=
    match priceRaw with
    | num x => x
    | str s => parseFloat s
    end in
  let category :=
    or_text (category result)
      (or_text (m_category meta) (or_text (m_categoria meta) "Sin categoría")) in
  Menu.mkMenuItem (item_id (m_sku meta) index) name description
    (if PrimFloat.is_nan price then 0%float else price) category
    (nullish (m_is_active meta) true).

Definition fetchCategories (fetched : settled (Response CategoriesResponse))
    : Eff State unit :=
  try_catch_finally
    (res <- await fetched ;;
     if negb (ok res) then ret tt
     else
       data <- await (json res) ;;
       match categories data with
       | Some cs =>
           if (0 <? length cs)%nat then setCategories ("Todos" :: cs) else ret tt
       | None => ret tt
       end)
    (fun err => console_error ("Error loading categories " +:+ exn_message err))
    (ret tt).

(** The text [fetchMenu] searches for:
    [searchQuery || (selectedCategory !== "Todos" ? selectedCategory : "")]. *)
Definition search_text (searchQuery selectedCategory : string) : string :=
  or_else searchQuery
    (if negb (String.eqb selectedCategory "Todos") then selectedCategory else "").

(** [fetchMenu], for the [searchQuery] and [selectedCategory] its closure
    captured and a backend answering the posted search. *)
Definition fetchMenu (searchQuery selectedCategory : string)
    (backend : SearchRequest -> settled (Response SearchResponse)) : Eff State unit :=
  setIsLoading true ;;
  try_catch_finally
    (let query := search_text searchQuery selectedCategory in
     res <- await (backend (mkRequest query 50)) ;;
     (if negb (ok res) then
        body <- await (text res) ;;
        throw (Error (or_else body ("Error HTTP " +:+ string_of_nat (status res))))
      else ret tt) ;;
     data <- await (json res) ;;
     let mapped := imap (fun index result => mapResultToItem result index)
                        (nullish (results data) []) in
     setMenuItems mapped)
    (fun err =>
       console_error (exn_message err) ;;
       show_toast (toast_error "Error al buscar en el menú.") ;;
       setMenuItems [])
    (setIsLoading false).

End Mapping.

End MenuPage.

(* ===================================================================== *)
(** ** Loading and searching the customers *)
(* ===================================================================== *)

Module CRMPage.
Import JS Effects.

Record CustomersResponse : Type := mkCustomers {
  customers : option (list CRM.Customer);
  count : nat
}.

Record State : Type := mkState {
  st_customers : list CRM.Customer;
  st_search : string;
  st_isLoading : bool;
  st_toasts : list Toast;
  st_console : list string
}.

Definition setCustomers (v : list CRM.Customer) : Eff State unit :=
  modify (fun st =>
    mkState v (st_search st) (st_isLoading st) (st_toasts st) (st_console st)).

Definition setIsLoading (v : bool) : Eff State unit :=
  modify (fun st =>
    mkState (st_customers st) (st_search st) v (st_toasts st) (st_console st)).

Definition show_toast (t : Toast) : Eff State unit :=
  modify (fun st =>
    mkState (st_customers st) (st_search st) (st_isLoading st)
            (st_toasts st ++ [t]) (st_console st)).

Definition console_error (msg : string) : Eff State unit :=
  modify (fun st =>
    mkState (st_customers st) (st_search st) (st_isLoading st)
            (st_toasts st) (st_console st ++ [msg])).

Definition loadCustomers (fetched : settled (Response CustomersResponse)) : Eff State unit :=
  setIsLoading true ;;
  try_catch_finally
    (res <- await fetched ;;
     (if negb (ok res) then
        body <- await (text res) ;;
        throw (Error (or_else body ("Error HTTP " +:+ string_of_nat (status res))))
      else ret tt) ;;
     data <- await (json res) ;;
     setCustomers (default [] (customers data)))
    (fun err =>
       console_error (exn_message err) ;;
       show_toast (toast_error "Error al cargar los clientes del CRM.") ;;
       setCustomers [])
    (setIsLoading false).

Section Search.

Variable trim : string -> string.
Variable toLowerCase : string -> string.

(** The test of the filter, for the lowered search text [q]. *)
Definition matches (q : string) (c : CRM.Customer) : bool :=
  includes (toLowerCase (CRM.name c)) q ||
  includes (toLowerCase (default "" (CRM.email c))) q ||
  includes (toLowerCase (default "" (CRM.whatsapp c))) q.

(** The memoised [filtered]. [(c.email || "")] is the email when there
    is one and the empty string otherwise, the empty email being its own
    fallback. *)
Definition filtered (customers : list CRM.Customer) (search : string)
    : list CRM.Customer :=
  if negb (truthy (trim search)) then customers
  else
    let q := toLowerCase search in
    List.filter (matches q) customers.

End Search.

(** The name shown in the table: [c.name || `ID ${c.customer_id}`]. *)
Definition shown_name (c : CRM.Customer) : string :=
  or_else (CRM.name c) ("ID " +:+ string_of_nat (CRM.customer_id c)).

End CRMPage.

(* ===================================================================== *)
(** ** The navigation of the layout *)
(* ===================================================================== *)

Module Layout.

(** An entry of the navigation; its icon, a component, is left out. *)
Record NavItem : Type := mkNav {
  name : string;
  href : string
}.

Definition navigation : list NavItem :=
  [mkNav "Dashboard" "/"; mkNav "Chat" "/chat"; mkNav "Reservations" "/reservations";
   mkNav "Menu" "/menu"; mkNav "Analytics" "/analytics"; mkNav "CRM" "/crm"].

(** [location.pathname === item.href]. *)
Definition isActive (pathname : string) (item : NavItem) : bool :=
  String.eqb pathname (href item).

(** The items drawn as active for a pathname. *)
Definition active_items (pathname : string) : list NavItem :=
  List.filter (isActive pathname) navigation.

End Layout.

(* ===================================================================== *)
(** ** Concrete runs of the other pages *)
(* ===================================================================== *)

Module PageRuns.
Import JS.

(** A history endpoint answering 500 with a body, and a chat backend
    answering 200 with a body that is not JSON. *)
Definition history_down : Response Chat.ChatHistoryResponse :=
  mkResponse false 500 (inr "Internal Server Error") (inl (Error "no body")).

Definition garbled (_ : Chat.ChatRequest) : settled (Response Chat.ChatResponse) :=
  inr (mkResponse true 200 (inr "<html>") (inl (Error "Unexpected token <"))).

Definition instant (n : nat) : nat := 1000 + n.

Definition plotted : Analytics.ManagerAskResponse :=
  Analytics.mkAsk "Top 10 SKUs" (Some "p1") (Some "/manager/plots/p1") None.

Definition agent (_ : string) : settled (Response Analytics.ManagerAskResponse) :=
  inr (mkResponse true 200 (inr "") (inr plotted)).

Definition agent_down (_ : string) : settled (Response Analytics.ManagerAskResponse) :=
  inl (Error "Failed to fetch").

Definition dinner : Reservations.Reservation :=
  Reservations.mkReservation 1 7 "2025-11-10" "19:00" (Some 4%float) (Some "confirmed")
    None None None None.

Definition searched : ReservationsPage.State :=
  ReservationsPage.mkState [dinner] "7" false None [].

Definition bookings (_ : string) : settled (Response (list Reservations.Reservation)) :=
  inr (mkResponse true 200 (inr "") (inr [dinner; dinner])).

Definition bookings_down (_ : string)
    : settled (Response (list Reservations.Reservation)) :=
  inr (mkResponse false 500 (inr "") (inl (Error "no body"))).

(** Stand-ins for [parseFloat] and the printing of numbers; the runs
    below hold no textual price and no numeric SKU. *)
Definition parseFloat (_ : string) : float := PrimFloat.nan.

Definition String_of_number (_ : float) : string := "NaN".

Definition tacos : MenuPage.MenuSearchResult :=
  MenuPage.mkResult "Tacos al pastor" (Some "Platos")
    (Some (MenuPage.mkMetadata (Some "Tacos") (Some "Taquitos") None (Some "Con piña")
             (Some (MenuPage.num 95%float)) (Some (MenuPage.num 90%float))
             None None None None)).

Definition agua : MenuPage.MenuSearchResult :=
  MenuPage.mkResult "Agua de jamaica" None None.

Definition kitchen (_ : MenuPage.SearchRequest)
    : settled (Response MenuPage.SearchResponse) :=
  inr (mkResponse true 200 (inr "")
         (inr (MenuPage.mkSearchResponse "" (Some [tacos; agua])))).

Definition kitchen_down (_ : MenuPage.SearchRequest)
    : settled (Response MenuPage.SearchResponse) :=
  inl (Error "Failed to fetch").

Definition two_tabs : Response MenuPage.CategoriesResponse :=
  mkResponse true 200 (inr "") (inr (MenuPage.mkCategories (Some ["Platos"; "Bebidas"]))).

Definition crowded : CRMPage.State :=
  CRMPage.mkState CRMRuns.regulars "" false [] [].

Definition crm_down : settled (Response CRMPage.CustomersResponse) :=
  inr (mkResponse false 502 (inr "Bad Gateway") (inl (Error "no body"))).

End PageRuns.

(* ===================================================================== *)
(** * Properties of the chat page *)
(* ===================================================================== *)

Section ChatFacts.
Import JS Chat.

Variable trim : string -> string.
Variable clock : nat -> string.

Lemma truthy_nonempty (s : string) : truthy s = true <-> s <> "".
Proof.
  unfold truthy. destruct (String.eqb_spec s ""); simpl; split; congruence.
Qed.

(** [map_history] never throws: it reads the clock once per element and
    yields one message per element, numbered from [idx + 1]. *)
Lemma map_history_run (h : list BackendHistoryItem) :
  forall idx st,
    exists msgs,
      map_history clock idx h st =
        (mkState (st_messages st) (st_input st) (st_isLoading st) (st_toasts st)
                 (st_console st) (st_clock_reads st + length h), inr msgs)
      /\ map shown msgs = map returned h
      /\ map id msgs = seq (idx + 1) (length h).
Proof.
  induction h as [|m h IH]; intros idx st.
  - exists []. simpl. rewrite Nat.add_0_r. destruct st; auto.
  - simpl. unfold bind at 1. unfold now at 1.
    destruct (IH (S idx) (mkState (st_messages st) (st_input st) (st_isLoading st)
                   (st_toasts st) (st_console st) (S (st_clock_reads st))))
      as (msgs & Hrun & Hshown & Hids).
    unfold bind at 1. rewrite Hrun. simpl.
    eexists. split; [|split].
    + unfold ret. f_equal. f_equal. lia.
    + simpl. unfold shown at 1, returned at 1. simpl. by rewrite Hshown.
    + simpl. rewrite Hids. reflexivity.
Qed.

(** The messages [loadHistory] sets when the endpoint answers with a
    history. *)
Lemma loadHistory_ok (res : Response ChatHistoryResponse) data st :
  ok res = true -> json res = inr data ->
  exists mapped,
    st_messages (run (loadHistory clock (inr res)) st) =
      (if (length mapped =? 0)%nat
       then mapped ++ [mkMessage 1 assistant greeting
                                 (clock (st_clock_reads st + length (history data)))]
       else mapped)
    /\ map shown mapped = map returned (history data)
    /\ map id mapped = seq 1 (length (history data)).
Proof.
  intros Hok Hjson. unfold loadHistory, run.
  unfold bind at 1. simpl. unfold try_catch_finally.
  unfold bind at 1. simpl. rewrite Hok. simpl.
  unfold bind at 1. rewrite Hjson. simpl.
  unfold bind at 1.
  match goal with |- context [map_history clock 0 ?h ?s] =>
    destruct (map_history_run h 0 s) as (msgs & Hrun & Hshown & Hids)
  end.
  rewrite Hrun. simpl. exists msgs. split; [|auto].
  destruct (length msgs =? 0)%nat; reflexivity.
Qed.

(** C7: when the history endpoint answers, every turn it returns is
    rendered, in order, with its role and text, whatever their number;
    the greeting is shown instead only when the returned history is
    empty. *)
Theorem C7_history_rendered_in_full
    (fetched : settled (Response ChatHistoryResponse)) res data st :
  fetched = inr res -> ok res = true -> json res = inr data ->
  let msgs := st_messages (run (loadHistory clock fetched) st) in
  (history data <> [] ->
     map shown msgs = map returned (history data) /\
     map id msgs = seq 1 (length (history data)))
  /\ (history data = [] ->
        msgs = [mkMessage 1 assistant greeting (clock (st_clock_reads st))]).
Proof.
  intros -> Hok Hjson msgs.
  destruct (loadHistory_ok res data st Hok Hjson) as (mapped & Hrun & Hshown & Hids).
  subst msgs. rewrite Hrun. clear Hrun.
  assert (Hlen : length mapped = length (history data)).
  { rewrite <- (length_map shown mapped), Hshown. apply length_map. }
  split.
  - intros Hne.
    destruct (length mapped =? 0)%nat eqn:E; [|auto].
    apply Nat.eqb_eq in E. rewrite Hlen in E.
    destruct (history data); [congruence | discriminate].
  - intros Hnil. rewrite Hnil in *. destruct mapped; [|discriminate]. simpl.
    rewrite Nat.add_0_r. reflexivity.
Qed.

(** The state [handleSendMessage] leaves behind, case by case. *)
Lemma handleSendMessage_blank messages input backend st :
  trim input = "" ->
  run (handleSendMessage trim clock messages input backend) st = st.
Proof.
  intros H. unfold handleSendMessage, run. rewrite H. reflexivity.
Qed.

Lemma handleSendMessage_failed messages input backend st :
  trim input <> "" ->
  call_failed (backend (mkChatRequest input DASHBOARD_CUSTOMER_ID)) = true ->
  exists e,
  run (handleSendMessage trim clock messages input backend) st =
    mkState
      (st_messages st ++
         [mkMessage (length messages + 1) user input (clock (st_clock_reads st));
          mkMessage (length messages + 2) assistant try_again
                    (clock (S (st_clock_reads st)))])
      "" false
      (st_toasts st ++ ["Error al enviar el mensaje al backend."])
      (st_console st ++ [e])
      (S (S (st_clock_reads st))).
Proof.
  intros Hin Hfail. apply truthy_nonempty in Hin.
  unfold handleSendMessage, run. rewrite Hin. simpl.
  unfold bind at 1. simpl. unfold bind at 1. simpl.
  unfold bind at 1. simpl. unfold bind at 1. simpl.
  unfold try_catch_finally. unfold bind at 1. simpl.
  destruct (backend _) as [e|res]; simpl.
  - eexists. rewrite <- app_assoc. reflexivity.
  - simpl in Hfail. apply negb_true_iff in Hfail. rewrite Hfail. simpl.
    unfold bind at 1. unfold bind at 1. simpl.
    destruct (text res) as [e|body]; simpl; eexists; rewrite <- app_assoc; reflexivity.
Qed.


Lemma handleSendMessage_bad_body messages input backend st res e :
  trim input <> "" ->
  backend (mkChatRequest input DASHBOARD_CUSTOMER_ID) = inr res ->
  ok res = true -> json res = inl e ->
  run (handleSendMessage trim clock messages input backend) st =
    mkState
      (st_messages st ++
         [mkMessage (length messages + 1) user input (clock (st_clock_reads st));
          mkMessage (length messages + 2) assistant try_again
                    (clock (S (st_clock_reads st)))])
      "" false
      (st_toasts st ++ ["Error al enviar el mensaje al backend."])
      (st_console st ++ [exn_message e])
      (S (S (st_clock_reads st))).
Proof.
  intros Hin Hres Hok Hjson. apply truthy_nonempty in Hin.
  unfold handleSendMessage, run. rewrite Hin. simpl.
  unfold bind at 1. simpl. unfold bind at 1. simpl.
  unfold bind at 1. simpl. unfold bind at 1. simpl.
  unfold try_catch_finally. unfold bind at 1. simpl.
  rewrite Hres. simpl. rewrite Hok. simpl.
  unfold bind at 1. simpl. unfold bind at 1. rewrite Hjson. simpl.
  rewrite <- app_assoc. reflexivity.
Qed.

Lemma handleSendMessage_replied messages input backend st res data :
  trim input <> "" ->
  backend (mkChatRequest input DASHBOARD_CUSTOMER_ID) = inr res ->
  ok res = true -> json res = inr data ->
  let noted := pending_reservation data || pending_update data || pending_cancel data in
  run (handleSendMessage trim clock messages input backend) st =
    mkState
      (st_messages st ++
         [mkMessage (length messages + 1) user input (clock (st_clock_reads st));
          mkMessage (length messages + 1 + 1) assistant (response data)
                    (clock (S (st_clock_reads st)))] ++
         (if noted
          then [mkMessage (length messages + 1 + 1 + 1) assistant (note_content data)
                          (clock (S (S (st_clock_reads st))))]
          else []))
      "" false (st_toasts st) (st_console st)
      (if noted then S (S (S (st_clock_reads st))) else S (S (st_clock_reads st))).
Proof.
  intros Hin Hres Hok Hjson noted. apply truthy_nonempty in Hin.
  unfold handleSendMessage, run. rewrite Hin. simpl.
  unfold bind at 1. simpl. unfold bind at 1. simpl.
  unfold bind at 1. simpl. unfold bind at 1. simpl.
  unfold try_catch_finally. unfold bind at 1. simpl.
  rewrite Hres. simpl. rewrite Hok. simpl.
  unfold bind at 1. simpl. unfold bind at 1. rewrite Hjson. simpl.
  unfold bind at 1. simpl. unfold bind at 1. simpl.
  subst noted.
  destruct (pending_reservation data || pending_update data || pending_cancel data);
    simpl; rewrite <- !app_assoc; reflexivity.
Qed.

(** C5: handling a sent message only appends to the message list, the
    turns recorded before staying as they were and where they were; on a
    successful turn the user turn and then the assistant turn are
    appended. *)
Theorem C5_messages_append_only messages input backend st :
  st_messages st `prefix_of`
    st_messages (run (handleSendMessage trim clock messages input backend) st)
  /\ (forall res data,
        trim input <> "" ->
        backend (mkChatRequest input DASHBOARD_CUSTOMER_ID) = inr res ->
        ok res = true -> json res = inr data ->
        exists sent answered rest,
          st_messages (run (handleSendMessage trim clock messages input backend) st) =
            st_messages st ++ sent :: answered :: rest
          /\ shown sent = (user, input)
          /\ shown answered = (assistant, response data)).
Proof.
  split.
  - destruct (decide (trim input = "")) as [Hblank|Hin].
    { rewrite handleSendMessage_blank by done. done. }
    destruct (backend (mkChatRequest input DASHBOARD_CUSTOMER_ID)) as [e|res] eqn:Hres.
    { destruct (handleSendMessage_failed messages input backend st Hin) as [c ->].
      - by rewrite Hres.
      - by eexists. }
    destruct (ok res) eqn:Hok.
    + destruct (json res) as [e|data] eqn:Hjson.
      * rewrite (handleSendMessage_bad_body _ _ _ _ _ _ Hin Hres Hok Hjson). by eexists.
      * rewrite (handleSendMessage_replied _ _ _ _ _ _ Hin Hres Hok Hjson). by eexists.
    + destruct (handleSendMessage_failed messages input backend st Hin) as [c ->].
      * by rewrite Hres; simpl; rewrite Hok.
      * by eexists.
  - intros res data Hin Hres Hok Hjson.
    rewrite (handleSendMessage_replied _ _ _ _ _ _ Hin Hres Hok Hjson). simpl.
    eexists _, _, _. split; [reflexivity|]. split; reflexivity.
Qed.

(** C6: when the call to the chat backend fails, by a network error or
    a response that is not OK, the turn ends with the try-again message
    and an error toast: after the user's message nothing but that
    message is recorded, no answer and no note on pending state. *)
Theorem C6_failed_call_try_again messages input backend st :
  trim input <> "" ->
  call_failed (backend (mkChatRequest input DASHBOARD_CUSTOMER_ID)) = true ->
  let st' := run (handleSendMessage trim clock messages input backend) st in
  st_messages st' =
    st_messages st ++
      [mkMessage (length messages + 1) user input (clock (st_clock_reads st));
       mkMessage (length messages + 2) assistant try_again
                 (clock (S (st_clock_reads st)))]
  /\ st_toasts st' = st_toasts st ++ ["Error al enviar el mensaje al backend."]
  /\ st_isLoading st' = false.
Proof.
  intros Hin Hfail st'. subst st'.
  destruct (handleSendMessage_failed messages input backend st Hin Hfail) as [e ->].
  simpl. auto.
Qed.

End ChatFacts.

Example run_answering :
  Chat.st_messages
    (Chat.run (Chat.handleSendMessage JS.ascii_trim ChatRuns.clock [] "hola"
                 ChatRuns.answering) ChatRuns.idle) =
  [Chat.mkMessage 1 Chat.user "hola" "10:00";
   Chat.mkMessage 2 Chat.assistant "Claro, para cuantas personas?" "10:01";
   Chat.mkMessage 3 Chat.assistant
     "Nota interna: tengo una reservación pendiente de confirmar. Completa el flujo desde el WhatsApp/UX correspondiente."
     "10:02"].
Proof. vm_compute. reflexivity. Qed.

Example run_blank :
  Chat.run (Chat.handleSendMessage JS.ascii_trim ChatRuns.clock [] "   "
              ChatRuns.answering) ChatRuns.idle = ChatRuns.idle.
Proof. vm_compute. reflexivity. Qed.

Example run_unavailable :
  map Chat.shown
    (Chat.st_messages
       (Chat.run (Chat.handleSendMessage JS.ascii_trim ChatRuns.clock [] "hola"
                    ChatRuns.unavailable) ChatRuns.idle)) =
  [(Chat.user, "hola"); (Chat.assistant, Chat.try_again)].
Proof. vm_compute. reflexivity. Qed.

(** A successful turn on an empty message list: the message sent and the
    answer follow in this order. *)
Lemma C5_messages_append_only_witness :
  exists sent answered rest,
    Chat.st_messages
      (Chat.run (Chat.handleSendMessage JS.ascii_trim ChatRuns.clock [] "hola"
                   ChatRuns.answering) ChatRuns.idle) =
      Chat.st_messages ChatRuns.idle ++ sent :: answered :: rest
    /\ Chat.shown sent = (Chat.user, "hola")
    /\ Chat.shown answered = (Chat.assistant, Chat.response ChatRuns.reply_pending).
Proof.
  apply (proj2 (C5_messages_append_only JS.ascii_trim ChatRuns.clock [] "hola"
                  ChatRuns.answering ChatRuns.idle)
               (JS.mkResponse true 200 (inr "") (inr ChatRuns.reply_pending))
               ChatRuns.reply_pending).
  - vm_compute. discriminate.
  - reflexivity.
  - reflexivity.
  - reflexivity.
Defined.

(** A turn answered with status 503. *)
Lemma C6_failed_call_try_again_witness :
  let st' := Chat.run (Chat.handleSendMessage JS.ascii_trim ChatRuns.clock [] "hola"
                         ChatRuns.unavailable) ChatRuns.idle in
  Chat.st_messages st' =
    [Chat.mkMessage 1 Chat.user "hola" "10:00";
     Chat.mkMessage 2 Chat.assistant Chat.try_again "10:01"]
  /\ Chat.st_toasts st' = ["Error al enviar el mensaje al backend."]
  /\ Chat.st_isLoading st' = false.
Proof.
  apply (C6_failed_call_try_again JS.ascii_trim ChatRuns.clock [] "hola"
           ChatRuns.unavailable ChatRuns.idle).
  - vm_compute. discriminate.
  - reflexivity.
Defined.

(** A stored history of three turns is rendered as three messages. *)
Lemma C7_history_rendered_in_full_witness :
  let msgs := Chat.st_messages
                (Chat.run (Chat.loadHistory ChatRuns.clock (inr ChatRuns.history_answer))
                          ChatRuns.idle) in
  map Chat.shown msgs =
    [(Chat.user, "hola"); (Chat.assistant, "Hola, en que te ayudo?");
     (Chat.user, "quiero reservar")]
  /\ map Chat.id msgs = [1; 2; 3].
Proof.
  apply (proj1 (C7_history_rendered_in_full ChatRuns.clock (inr ChatRuns.history_answer)
                  ChatRuns.history_answer ChatRuns.stored ChatRuns.idle
                  eq_refl eq_refl eq_refl)).
  simpl. discriminate.
Defined.

(* ===================================================================== *)
(** * Properties of the reservations page *)
(* ===================================================================== *)

Section ReservationsFacts.
Import Reservations.

Variable toLowerCase : string -> string.

Lemma status_is_lowered lit r :
  status_is toLowerCase lit r = true <-> lowered toLowerCase r = Some lit.
Proof.
  unfold status_is, lowered. destruct (status r) as [s|]; simpl.
  - rewrite String.eqb_eq. split; congruence.
  - split; discriminate.
Qed.

(** Counting with the page's test is counting the reservations whose
    lowered status is the literal. *)
Lemma count_status_is lit rs :
  length (List.filter (status_is toLowerCase lit) rs) =
  length (filter (fun r => lowered toLowerCase r = Some lit) rs).
Proof.
  induction rs as [|r rs IH]; [reflexivity|].
  simpl. rewrite filter_cons.
  destruct (status_is toLowerCase lit r) eqn:E; case_decide as Hd; simpl.
  - by rewrite IH.
  - apply status_is_lowered in E. contradiction.
  - apply status_is_lowered in Hd. congruence.
  - exact IH.
Qed.

(** Every reservation is confirmed, pending or neither, and never two of
    these. *)
Lemma count_partition rs :
  length (List.filter (status_is toLowerCase "confirmed") rs) +
  length (List.filter (status_is toLowerCase "pending") rs) +
  length (filter (fun r => lowered toLowerCase r <> Some "confirmed" /\
                           lowered toLowerCase r <> Some "pending") rs) =
  length rs.
Proof.
  induction rs as [|r rs IH]; [reflexivity|].
  simpl. rewrite filter_cons.
  destruct (status_is toLowerCase "confirmed" r) eqn:Ec;
    destruct (status_is toLowerCase "pending" r) eqn:Ep.
  - apply status_is_lowered in Ec. apply status_is_lowered in Ep. congruence.
  - apply status_is_lowered in Ec.
    rewrite decide_False by (intros [? ?]; contradiction). simpl. lia.
  - apply status_is_lowered in Ep.
    rewrite decide_False by (intros [? ?]; contradiction). simpl. lia.
  - rewrite decide_True; [simpl; lia|].
    split; intros H; apply status_is_lowered in H; congruence.
Qed.

(** C8: the Confirmed counter counts exactly the reservations whose
    status in lower case is "confirmed", the Pending counter exactly
    those whose status in lower case is "pending"; a reservation with
    another status, or none, is counted in neither, so the two counters
    together never exceed the total. *)
Theorem C8_status_counters (reservations : list Reservation) :
  confirmedCount toLowerCase reservations =
    length (filter (fun r => lowered toLowerCase r = Some "confirmed") reservations)
  /\ pendingCount toLowerCase reservations =
    length (filter (fun r => lowered toLowerCase r = Some "pending") reservations)
  /\ confirmedCount toLowerCase reservations + pendingCount toLowerCase reservations +
     length (filter (fun r => lowered toLowerCase r <> Some "confirmed" /\
                              lowered toLowerCase r <> Some "pending") reservations) =
     totalReservations reservations
  /\ confirmedCount toLowerCase reservations + pendingCount toLowerCase reservations
     <= totalReservations reservations.
Proof.
  unfold confirmedCount, pendingCount, totalReservations.
  pose proof (count_partition reservations) as Hp.
  repeat split; try apply count_status_is; [exact Hp | lia].
Qed.

End ReservationsFacts.

Example counters_run :
  let rs := [Reservations.mkReservation 1 7 "2025-11-10" "19:00" (Some 4%float)
               (Some "Confirmed") None None None None;
             Reservations.mkReservation 2 7 "2025-11-11" "20:00" (Some 2%float)
               (Some "PENDING") None None None None;
             Reservations.mkReservation 3 7 "2025-11-12" "21:00" None
               (Some "cancelled") None None None None;
             Reservations.mkReservation 4 7 "2025-11-13" "21:00" None
               None None None None None] in
  (Reservations.totalReservations rs,
   Reservations.confirmedCount JS.ascii_toLowerCase rs,
   Reservations.pendingCount JS.ascii_toLowerCase rs) = (4, 1, 1).
Proof. vm_compute. reflexivity. Qed.

(* ===================================================================== *)
(** * Properties of the menu page *)
(* ===================================================================== *)

Section IncludesFacts.
Import JS Menu.

Lemma append_cons a (s t : string) : String a s +:+ t = String a (s +:+ t).
Proof. reflexivity. Qed.

Lemma startsWith_spec (p : string) :
  forall s, startsWith s p = true <-> exists after, s = p +:+ after.
Proof.
  induction p as [|b p IH]; intros s; simpl.
  - split; [exists s; reflexivity | reflexivity].
  - destruct s as [|a s].
    + split; [discriminate | intros [? ?]; discriminate].
    + destruct (Ascii.eqb_spec a b) as [->|Hne].
      * rewrite IH. split; intros [after H]; exists after;
          rewrite append_cons in *; congruence.
      * split; [discriminate | intros [after H]; rewrite append_cons in H; congruence].
Qed.

Lemma includes_spec (q : string) :
  forall s, includes s q = true <-> occurs_in q s.
Proof.
  unfold occurs_in.
  induction s as [|a s IH]; simpl.
  - rewrite orb_false_r, startsWith_spec. split.
    + intros [after H]. exists "", after. exact H.
    + intros (before & after & H). destruct before; [eauto|discriminate].
  - rewrite orb_true_iff, startsWith_spec, IH. split.
    + intros [[after H] | (before & after & H)].
      * exists "", after. exact H.
      * exists (String a before), after. by rewrite append_cons, H.
    + intros (before & after & H). destruct before as [|b before].
      * left. exists after. exact H.
      * right. exists before, after. rewrite append_cons in H. congruence.
Qed.

Lemma includes_empty s : includes s "" = true.
Proof. destruct s; reflexivity. Qed.

End IncludesFacts.

Section MenuFacts.
Import JS Menu.

Variable toLowerCase : string -> string.

(** C9: an item is displayed exactly when it was fetched, the search
    query in lower case occurs in its name or in its description in lower
    case, and the selected category is "Todos" or the item's own; with an
    empty query and "Todos" every fetched item is displayed. *)
Theorem C9_filteredItems (menuItems : list MenuItem) (searchQuery selectedCategory : string) :
  (forall item,
     In item (filteredItems toLowerCase menuItems searchQuery selectedCategory) <->
     In item menuItems /\
     (occurs_in (toLowerCase searchQuery) (toLowerCase (name item)) \/
      occurs_in (toLowerCase searchQuery) (toLowerCase (description item))) /\
     (selectedCategory = "Todos" \/ category item = selectedCategory))
  /\ (toLowerCase "" = "" -> filteredItems toLowerCase menuItems "" "Todos" = menuItems).
Proof.
  split.
  - intros item. unfold filteredItems, matchesSearch, matchesCategory.
    rewrite filter_In, andb_true_iff, !orb_true_iff, !includes_spec, !String.eqb_eq.
    reflexivity.
  - intros Hempty. unfold filteredItems.
    induction menuItems as [|item items IH]; [reflexivity|].
    simpl. unfold matchesSearch at 1, matchesCategory at 1.
    rewrite Hempty, includes_empty. simpl. by rewrite IH.
Qed.

End MenuFacts.

Example menu_run :
  let tacos := Menu.mkMenuItem "1" "Tacos al Pastor" "Con piña" 95%float "Platos" true in
  let agua := Menu.mkMenuItem "2" "Agua de Jamaica" "Bebida fresca" 30%float "Bebidas" true in
  Menu.filteredItems JS.ascii_toLowerCase [tacos; agua] "PASTOR" "Todos" = [tacos]
  /\ Menu.filteredItems JS.ascii_toLowerCase [tacos; agua] "a" "Bebidas" = [agua]
  /\ Menu.filteredItems JS.ascii_toLowerCase [tacos; agua] "" "Todos" = [tacos; agua].
Proof. vm_compute. auto. Qed.

(** With the ASCII lower-casing, an empty query and "Todos" display both
    items. *)
Lemma C9_filteredItems_witness :
  let tacos := Menu.mkMenuItem "1" "Tacos al Pastor" "Con piña" 95%float "Platos" true in
  let agua := Menu.mkMenuItem "2" "Agua de Jamaica" "Bebida fresca" 30%float "Bebidas" true in
  Menu.filteredItems JS.ascii_toLowerCase [tacos; agua] "" "Todos" = [tacos; agua].
Proof.
  intros tacos agua.
  apply (proj2 (C9_filteredItems JS.ascii_toLowerCase [tacos; agua] "" "Todos")).
  reflexivity.
Defined.

(* ===================================================================== *)
(** * Properties of the CRM page *)
(* ===================================================================== *)

(** ** An array length as a number *)

Lemma digits2_iter m p :
  digits2_pos (Pos.iter xO m p) = (digits2_pos m + p)%positive.
Proof.
  induction p using Pos.peano_ind.
  - simpl. lia.
  - rewrite Pos.iter_succ. simpl. rewrite IHp. lia.
Qed.

Lemma Zpos_iter m p : Zpos (Pos.iter xO m p) = (Zpos m * 2 ^ Zpos p)%Z.
Proof.
  induction p using Pos.peano_ind.
  - simpl. lia.
  - rewrite Pos.iter_succ, Pos2Z.inj_succ, Z.pow_succ_r by lia.
    rewrite Pos2Z.inj_xO, IHp. lia.
Qed.

Lemma digits2_size m : digits2_pos m = Pos.size m.
Proof. induction m; simpl; congruence. Qed.

(** An integer below [2^53] has at most 53 binary digits. *)
Lemma digits2_bound m : (Zpos m < 2 ^ 53)%Z -> (Zpos (digits2_pos m) <= 53)%Z.
Proof.
  intros H. rewrite digits2_size.
  pose proof (Pos.size_le m) as Hs.
  assert (H2 : (2 ^ Zpos (Pos.size m) <= 2 * Zpos m)%Z).
  { change (2 * Zpos m)%Z with (Zpos m~0). rewrite <- Pos2Z.inj_pow. lia. }
  assert (H3 : (2 ^ Zpos (Pos.size m) < 2 ^ 54)%Z) by lia.
  apply Z.pow_lt_mono_r_iff in H3; lia.
Qed.

(** Rounding a mantissa of 53 digits with an exponent in range changes
    nothing. *)
Lemma round_aux_exact mz ez :
  Zpos (digits2_pos mz) = 53%Z -> (-1074 <= ez <= 971)%Z ->
  binary_round_aux prec emax false (Zpos mz) ez loc_Exact = S754_finite false mz ez.
Proof.
  intros Hd He.
  assert (Hs : forall l, shr_fexp prec emax (Zpos mz) ez l =
                         (shr_record_of_loc (Zpos mz) l, ez)).
  { intros l. unfold shr_fexp, Zdigits2. rewrite Hd.
    replace (fexp prec emax (53 + ez) - ez)%Z with 0%Z
      by (unfold fexp, emin, prec, emax; lia).
    reflexivity. }
  unfold binary_round_aux. rewrite Hs. simpl. rewrite Hs. simpl.
  replace (ez <=? emax - prec)%Z with true; [reflexivity|].
  symmetry. apply Z.leb_le. unfold emax, prec. lia.
Qed.

(** Rounding an integer below [2^53] to a binary64 number is exact. *)
Lemma binary_round_exact m :
  (Zpos m < 2 ^ 53)%Z ->
  exists m' k,
    binary_round prec emax false m 0 = S754_finite false m' (- k)
    /\ (0 <= k)%Z /\ Zpos m' = (Zpos m * 2 ^ k)%Z.
Proof.
  intros Hm. pose proof (digits2_bound m Hm) as Hd.
  unfold binary_round.
  assert (Hf : fexp prec emax (Zpos (digits2_pos m) + 0) = (Zpos (digits2_pos m) - 53)%Z).
  { unfold fexp, emin, prec, emax. lia. }
  rewrite Hf. unfold shl_align.
  destruct (Zpos (digits2_pos m) - 53 - 0)%Z as [|d|d] eqn:E; [|lia|].
  - exists m, 0%Z. rewrite round_aux_exact by lia.
    split; [reflexivity|]. split; lia.
  - exists (Pos.iter xO m d), (Zpos d).
    rewrite round_aux_exact.
    + replace (Zpos (digits2_pos m) - 53)%Z with (- Zpos d)%Z by lia.
      split; [reflexivity|]. split; [lia|]. apply Zpos_iter.
    + rewrite digits2_iter. lia.
    + lia.
Qed.

(** The number a positive length below [2^53] is converted to is that
    length, exactly. *)
Lemma number_of_nat_exact (n : nat) :
  (0 < n)%nat -> (Z.of_nat n < 2 ^ 53)%Z ->
  Numbers.denotes (Z.of_nat n) (JS.number_of_nat n).
Proof.
  intros Hpos Hn. unfold Numbers.denotes, JS.number_of_nat.
  rewrite of_uint63_spec.
  assert (Hz : Uint63.to_Z (Uint63.of_Z (Z.of_nat n)) = Z.of_nat n).
  { rewrite Uint63.of_Z_spec. apply Z.mod_small.
    assert (Uint63.wB = 2 ^ 63)%Z by reflexivity. lia. }
  rewrite Hz. destruct (Z.of_nat n) as [|m|m] eqn:E; [lia| |lia].
  simpl. apply binary_round_exact. exact Hn.
Qed.

(** A number that is a positive integer is neither zero nor NaN. *)
Lemma denotes_nonzero n x :
  Numbers.denotes n x -> PrimFloat.eqb x 0 = false /\ PrimFloat.is_nan x = false.
Proof.
  intros (m & k & H & _). split.
  - rewrite FloatAxioms.eqb_spec, H. reflexivity.
  - unfold PrimFloat.is_nan. rewrite FloatAxioms.eqb_spec, H. unfold SFeqb, SFcompare.
    rewrite Z.compare_refl, Pos.compare_cont_refl. reflexivity.
Qed.

(** C10: the global average ticket is defined on every customer list.
    On a non-empty list it is the running sum of [average_ticket] divided
    by the number of customers: the divisor is the length of the list,
    exactly, for every length an array can have (any length below
    [2^53]), so it is neither zero nor NaN and the division is no division
    by zero. On the empty list the average is 0, where the unguarded
    division would be NaN. *)
Theorem C10_avgTicketGlobal_guarded :
  (forall customers : list CRM.Customer,
     customers <> [] ->
     CRM.avgTicketGlobal customers =
       (CRM.ticket_total customers / JS.number_of_nat (length customers))%float
     /\ ((Z.of_nat (length customers) < 2 ^ 53)%Z ->
         Numbers.denotes (Z.of_nat (length customers))
                         (JS.number_of_nat (length customers))
         /\ PrimFloat.eqb (JS.number_of_nat (length customers)) 0 = false
         /\ PrimFloat.is_nan (JS.number_of_nat (length customers)) = false))
  /\ (forall customers c,
        CRM.ticket_total (customers ++ [c]) =
          (CRM.ticket_total customers + CRM.average_ticket c)%float)
  /\ CRM.ticket_total [] = 0%float
  /\ CRM.avgTicketGlobal [] = 0%float
  /\ PrimFloat.is_nan (CRM.ticket_total [] / JS.number_of_nat (length (@nil CRM.Customer)))
     = true.
Proof.
  split; [|repeat split].
  - intros customers Hne. split.
    + destruct customers; [congruence | reflexivity].
    + intros Hlen.
      assert (Hd : Numbers.denotes (Z.of_nat (length customers))
                                   (JS.number_of_nat (length customers))).
      { apply number_of_nat_exact; [|exact Hlen]. destruct customers; simpl; [done|lia]. }
      split; [exact Hd|]. by apply (denotes_nonzero (Z.of_nat (length customers))).
  - intros customers c. unfold CRM.ticket_total. by rewrite fold_left_app.
Qed.

Example avg_run : CRM.avgTicketGlobal CRMRuns.regulars = 300%float.
Proof. vm_compute. reflexivity. Qed.

Example length_as_number :
  Prim2SF (JS.number_of_nat 3) = S754_finite false 6755399441055744 (-51).
Proof. vm_compute. reflexivity. Qed.

(** The average over two customers: the divisor is 2. *)
Lemma C10_avgTicketGlobal_guarded_witness :
  CRM.avgTicketGlobal CRMRuns.regulars =
    (CRM.ticket_total CRMRuns.regulars / JS.number_of_nat (length CRMRuns.regulars))%float
  /\ Numbers.denotes 2 (JS.number_of_nat (length CRMRuns.regulars))
  /\ PrimFloat.eqb (JS.number_of_nat (length CRMRuns.regulars)) 0 = false.
Proof.
  destruct (proj1 C10_avgTicketGlobal_guarded CRMRuns.regulars) as [H1 H2].
  - discriminate.
  - destruct H2 as (H2 & H3 & _); [reflexivity|].
    split; [exact H1|]. split; [exact H2 | exact H3].
Defined.

(* ===================================================================== *)
(** * Properties of the conversational core *)
(* ===================================================================== *)

Section ExecutorFacts.
Import Core.

Variable store_rejects : gmap nat Reservation -> Kind -> Draft -> bool.
Variable calendar : list CalendarCall -> CalendarCall -> option nat.






End ExecutorFacts.

Example create_rolled_back :
  Core.execute CoreRuns.never_rejects CoreRuns.calendar_down
    Core.create CoreRuns.table_for_four "ana" CoreRuns.empty_world =
  (Core.mkWorld ∅ ∅
     [Core.create_event
        (Core.mkReservation 0 "ana" "2025-11-14" "20:00" 4 Core.confirmed None None)]
     ∅ 0,
   inl Core.calendar_sync_failure).
Proof. vm_compute. reflexivity. Qed.

Example create_mirrored :
  let '(w, out) := Core.execute CoreRuns.never_rejects CoreRuns.calendar_up
                     Core.create CoreRuns.table_for_four "ana" CoreRuns.empty_world in
  (Core.store w !! 0, Core.events w !! 0, out) =
  (Some (Core.mkReservation 0 "ana" "2025-11-14" "20:00" 4 Core.confirmed None None),
   Some 100,
   inr (Core.mkResult
          (Core.mkReservation 0 "ana" "2025-11-14" "20:00" 4 Core.confirmed None None)
          (Some 100))).
Proof. vm_compute. reflexivity. Qed.

Example cancel_unknown :
  Core.execute CoreRuns.never_rejects CoreRuns.calendar_up
    Core.cancel (Core.mkDraft None None None (Some 42) None None) "ana"
    CoreRuns.one_booking =
  (CoreRuns.one_booking, inl Core.not_found).
Proof. vm_compute. reflexivity. Qed.


(** C3: a request bearing a token already marked executed changes
    nothing, neither the store nor the calendar nor the tokens, and
    returns the result recorded for the token; so after a first
    successful execution a second request with its token returns the
    identical result and leaves everything as the first left it. *)
Theorem C3_executed_token_is_noop :
  (forall w token previous,
     Core.executed w !! token = Some previous ->
     forall rejects calendar k d customer,
       Core.execute_confirmed rejects calendar token k d customer w = (w, inr previous))
  /\ (forall rejects calendar token k d customer w w1 res,
        Core.execute_confirmed rejects calendar token k d customer w = (w1, inr res) ->
        forall rejects' calendar' k' d' customer',
          Core.execute_confirmed rejects' calendar' token k' d' customer' w1 =
            (w1, inr res)).
Proof.
  assert (Hnoop : forall w token previous,
     Core.executed w !! token = Some previous ->
     forall rejects calendar k d customer,
       Core.execute_confirmed rejects calendar token k d customer w = (w, inr previous)).
  { intros w token previous H *. unfold Core.execute_confirmed. by rewrite H. }
  split; [exact Hnoop|].
  intros rejects calendar token k d customer w w1 res H *.
  apply Hnoop. unfold Core.execute_confirmed in H.
  repeat case_match; simplify_eq; simpl; [done | apply lookup_insert_eq].
Qed.

(** Creating a reservation under token 0 and sending the request again. *)
Lemma C3_executed_token_is_noop_witness :
  let first := Core.execute_confirmed CoreRuns.never_rejects CoreRuns.calendar_up 0
                 Core.create CoreRuns.table_for_four "ana" CoreRuns.empty_world in
  Core.execute_confirmed CoreRuns.never_rejects CoreRuns.calendar_up 0
    Core.create CoreRuns.table_for_four "ana" first.1 = first.
Proof.
  intros first.
  assert (Hfirst : first = (first.1, inr (Core.mkResult
     (Core.mkReservation 0 "ana" "2025-11-14" "20:00" 4 Core.confirmed None None)
     (Some 100)))) by (vm_compute; reflexivity).
  rewrite Hfirst at 2.
  apply (proj2 C3_executed_token_is_noop CoreRuns.never_rejects CoreRuns.calendar_up 0
           Core.create CoreRuns.table_for_four "ana" CoreRuns.empty_world).
  exact Hfirst.
Defined.

Section OrchestratorFacts.
Import Core.

Variable store_rejects : gmap nat Reservation -> Kind -> Draft -> bool.
Variable calendar : list CalendarCall -> CalendarCall -> option nat.
Variable ttl : nat.
Variable classify : string -> list Turn -> Tracker -> RouteDecision.
Variable compose_reply :
  bool -> RouteDecision -> Tracker -> option (ExecutionError + ExecutionResult) -> string.
Variable label : RouteDecision -> string.

Abbreviation turn := (handle_turn store_rejects calendar ttl classify compose_reply label).
Abbreviation turns := (handle_turns store_rejects calendar ttl classify compose_reply label).

Lemma owned_none customer : owned customer none.
Proof. constructor. Qed.

Lemma belongs_other customer customer' s :
  customer <> customer' -> belongs customer s = true -> belongs customer' s = false.
Proof.
  unfold belongs. rewrite String.eqb_eq, String.eqb_neq. congruence.
Qed.

(** What [load] returns refers to the customer it was asked for. *)
Lemma load_owned customer store : owned customer (load customer store).2.
Proof.
  unfold load, owned. simpl.
  destruct (find (belongs customer) (pendings store)) as [s|] eqn:E; [|constructor].
  apply find_some in E. destruct E as [_ E].
  unfold as_tracker. destruct s as [pa [token|]]; simpl in *; by repeat constructor.
Qed.

Lemma expire_owned customer now t : owned customer t -> owned customer (expire now t).1.
Proof.
  intros H. destruct t as [|pa|pa token]; simpl; [done| |];
    destruct (pa_expiry pa <? now)%nat; simpl; by try apply owned_none.
Qed.

Lemma enter_owned customer k d created now w :
  owned customer (enter ttl customer k d created now w).2.
Proof.
  unfold enter, owned. destruct (complete k d); simpl;
    repeat constructor; unfold belongs; simpl; apply String.eqb_refl.
Qed.

(** Resolving a turn of a customer never leaves the tracker with an
    action of another customer. *)
Lemma resolve_owned customer now t dec w :
  owned customer t ->
  owned customer (resolve store_rejects calendar ttl customer now t dec w).1.2.
Proof.
  intros H. unfold resolve.
  destruct t as [|pa|pa token]; destruct dec as [[| |slots|r]|r slots]; simpl;
    try exact H; try apply owned_none.
  - destruct (mutation_of r); [|apply owned_none].
    pose proof (enter_owned customer k slots now now w) as He.
    by destruct (enter ttl customer k slots now now w).
  - pose proof (enter_owned customer (pa_kind pa) (merge (pa_draft pa) slots)
                  (pa_created pa) now w) as He.
    by destruct (enter ttl customer _ _ _ now w).
  - destruct (execute_confirmed _ _ _ _ _ _ _) as [w' [e|res]]; simpl;
      [exact H | apply owned_none].
  - pose proof (enter_owned customer (pa_kind pa) (merge (pa_draft pa) slots)
                  (pa_created pa) now w) as He.
    by destruct (enter ttl customer _ _ _ now w).
Qed.

Lemma filter_owned customer t : owned customer t ->
  List.filter (belongs customer) (as_stored t) = as_stored t.
Proof.
  intros H. destruct t; simpl in *; [done| |];
    inversion_clear H as [|? ? Hs _]; by rewrite Hs.
Qed.

Lemma filter_foreign customer customer' t :
  customer <> customer' -> owned customer t ->
  List.filter (belongs customer') (as_stored t) = [].
Proof.
  intros Hne H. destruct t; simpl in *; [done| |];
    inversion_clear H as [|? ? Hs _]; by rewrite (belongs_other _ _ _ Hne Hs).
Qed.

Lemma filter_out_own customer (l : list Stored) :
  List.filter (belongs customer) (List.filter (fun s => negb (belongs customer s)) l) = [].
Proof.
  induction l as [|s l IH]; [done|]. simpl.
  destruct (belongs customer s) eqn:E; simpl; [exact IH|]. by rewrite E.
Qed.

Lemma filter_out_other customer customer' (l : list Stored) :
  customer <> customer' ->
  List.filter (belongs customer') (List.filter (fun s => negb (belongs customer s)) l) =
  List.filter (belongs customer') l.
Proof.
  intros Hne. induction l as [|s l IH]; [done|]. simpl.
  destruct (belongs customer s) eqn:E; simpl.
  - by rewrite (belongs_other _ _ _ Hne E).
  - by rewrite IH.
Qed.

(** Persisting the state of a customer replaces that customer's pending
    actions and leaves those of the others. *)
Lemma pending_of_save customer t store :
  owned customer t ->
  pending_of customer (save_pending customer t store) = as_stored t
  /\ (forall customer', customer <> customer' ->
        pending_of customer' (save_pending customer t store) = pending_of customer' store).
Proof.
  intros H. unfold pending_of, save_pending. simpl. split.
  - by rewrite List.filter_app, filter_out_own, filter_owned.
  - intros customer' Hne.
    by rewrite List.filter_app, filter_out_other, (filter_foreign customer), app_nil_r.
Qed.

(** The pending actions of the customers after a turn: the state the
    turn resolved to for its customer, and what they were for the
    others. *)
Lemma handle_turn_pending customer message now store w :
  exists t2 outcome,
    owned customer t2
    /\ pending_of customer (turn customer message now store w).1.1 = as_stored t2
    /\ reservation_data (turn customer message now store w).2 = snapshot t2 outcome
    /\ (t2 <> none -> forall e, outcome <> Some (inr e))
    /\ forall customer', customer <> customer' ->
         pending_of customer' (turn customer message now store w).1.1 =
         pending_of customer' store.
Proof.
  unfold handle_turn.
  pose proof (load_owned customer store) as H0.
  destruct (load customer store) as [history kept]. simpl in H0.
  pose proof (expire_owned customer now kept H0) as H1.
  destruct (expire now kept) as [t1 timed_out]. simpl in H1.
  generalize (classify message history t1). intros dec.
  pose proof (resolve_owned customer now t1 dec w H1) as H2.
  assert (H3 : forall e,
    (resolve store_rejects calendar ttl customer now t1 dec w).1.2 <> none ->
    (resolve store_rejects calendar ttl customer now t1 dec w).2 <> Some (inr e)).
  { intros e. unfold resolve.
    destruct t1 as [|pa|pa token]; destruct dec as [[| |slots|r]|r slots]; simpl;
      try done.
    - destruct (mutation_of r); [|done]. by destruct (enter _ _ _ _ _ _ _).
    - by destruct (enter _ _ _ _ _ _ _).
    - by destruct (execute_confirmed _ _ _ _ _ _ _) as [w' [err|res]].
    - by destruct (enter _ _ _ _ _ _ _). }
  destruct (resolve _ _ _ _ _ _ _ _) as [[w' t2] outcome]. simpl in *.
  exists t2, outcome. split; [exact H2|].
  destruct (pending_of_save customer t2
              (append customer (mkTurn from_assistant
                                  (compose_reply timed_out dec t2 outcome) now)
                 (append customer (mkTurn from_user message now) store)) H2) as [Ha Hb].
  split; [exact Ha|]. split; [reflexivity|]. split; [intros Hn e; by apply H3|].
  intros customer' Hne. rewrite (Hb customer' Hne). reflexivity.
Qed.

(** After a turn its customer has at most one pending action, and the
    other customers as many as before. *)
Lemma handle_turn_single_slot customer message now store w :
  single_slot store -> single_slot (turn customer message now store w).1.1.
Proof.
  intros Hs customer'.
  destruct (handle_turn_pending customer message now store w)
    as (t2 & outcome & _ & Ha & _ & _ & Hb).
  destruct (decide (customer = customer')) as [<-|Hne].
  - rewrite Ha. destruct t2; simpl; lia.
  - rewrite (Hb customer' Hne). apply Hs.
Qed.

Lemma flags_of_slot (l : list Stored) :
  length l <= 1 ->
  Nat.b2n (existsb (fun s => kind_eqb (pa_kind (s_action s)) create) l) +
  Nat.b2n (existsb (fun s => kind_eqb (pa_kind (s_action s)) update) l) +
  Nat.b2n (existsb (fun s => kind_eqb (pa_kind (s_action s)) cancel) l) <= 1.
Proof.
  destruct l as [|s [|s' l]]; simpl; [lia| |lia].
  intros _. destruct (pa_kind (s_action s)); simpl; lia.
Qed.

(** The flags of a turn result are those of the state persisted. *)
Lemma handle_turn_flags customer message now store w :
  let r := turn customer message now store w in
  pending_reservation r.2 = flag create customer r.1.1
  /\ pending_update r.2 = flag update customer r.1.1
  /\ pending_cancel r.2 = flag cancel customer r.1.1.
Proof.
  unfold handle_turn.
  destruct (load customer store) as [history kept].
  destruct (expire now kept) as [t1 timed_out].
  destruct (resolve _ _ _ _ _ _ _ _) as [[w' t2] outcome]. simpl. auto.
Qed.

Lemma handle_turn_one_flag customer message now store w :
  flags_set (turn customer message now store w).2 <= 1.
Proof.
  destruct (handle_turn_flags customer message now store w) as (H1 & H2 & H3).
  unfold flags_set. rewrite H1, H2, H3. unfold flag.
  apply flags_of_slot.
  destruct (handle_turn_pending customer message now store w)
    as (t2 & outcome & _ & Ha & _).
  rewrite Ha. destruct t2; simpl; lia.
Qed.

Lemma handle_turns_invariant msgs :
  forall store w,
    single_slot store ->
    single_slot (turns msgs store w).1.1
    /\ Forall (fun res => flags_set res <= 1) (turns msgs store w).2.
Proof.
  induction msgs as [|[[customer message] now] rest IH]; intros store w Hs; simpl.
  - split; [exact Hs | constructor].
  - pose proof (handle_turn_single_slot customer message now store w Hs) as H1.
    pose proof (handle_turn_one_flag customer message now store w) as H2.
    destruct (turn customer message now store w) as [[store' w'] res].
    destruct (IH store' w' H1) as [H3 H4].
    destruct (turns rest store' w') as [[store'' w''] results]. simpl in *.
    split; [exact H3 | by constructor].
Qed.




(** The note of the chat page lists one entry per flag that is set. *)
Lemma pending_info_length (data : Chat.ChatResponse) :
  length (Chat.pending_info data) =
    Nat.b2n (Chat.pending_reservation data) + Nat.b2n (Chat.pending_update data) +
    Nat.b2n (Chat.pending_cancel data).
Proof.
  unfold Chat.pending_info.
  destruct (Chat.pending_reservation data), (Chat.pending_update data),
           (Chat.pending_cancel data); reflexivity.
Qed.

(** C1: the orchestrator keeps the invariant of the session store: if
    every customer has at most one pending action before a conversation,
    every customer has at most one after it, because a turn replaces the
    pending state of its customer and resolves it to an action of that
    customer only. Hence in every turn result at most one of the three
    pending flags is set, and the chat page, receiving these flags, has
    at most one entry to put in its note. *)
Theorem C1_at_most_one_pending_flag (msgs : list (string * string * nat))
    (store : SessionStore) (w : World) :
  single_slot store ->
  single_slot (turns msgs store w).1.1
  /\ Forall (fun res =>
               flags_set res <= 1
               /\ forall data,
                    Chat.pending_reservation data = pending_reservation res ->
                    Chat.pending_update data = pending_update res ->
                    Chat.pending_cancel data = pending_cancel res ->
                    length (Chat.pending_info data) <= 1)
            (turns msgs store w).2.
Proof.
  intros Hs. destruct (handle_turns_invariant msgs store w Hs) as [H1 H2].
  split; [exact H1|].
  eapply Forall_impl; [exact H2|].
  intros res Hres. split; [exact Hres|].
  intros data Ha Hb Hc. rewrite pending_info_length, Ha, Hb, Hc. exact Hres.
Qed.

End OrchestratorFacts.

Example conversation_run :
  map (fun res => (Core.pending_reservation res, Core.pending_update res,
                   Core.pending_cancel res, Core.reply res))
      (Core.handle_turns CoreRuns.never_rejects CoreRuns.calendar_up 15
         CoreRuns.classify CoreRuns.compose_reply CoreRuns.label
         CoreRuns.conversation Core.empty_store CoreRuns.empty_world).2 =
  [(true, false, false, "Que dia y a que hora?");
   (true, false, false, "Confirmas la reservacion?")].
Proof. vm_compute. reflexivity. Qed.

Example conversation_pending :
  map (fun s => (Core.pa_customer (Core.s_action s), Core.pa_kind (Core.s_action s),
                 Core.s_token s))
      (Core.pendings
         (Core.handle_turns CoreRuns.never_rejects CoreRuns.calendar_up 15
            CoreRuns.classify CoreRuns.compose_reply CoreRuns.label
            CoreRuns.conversation Core.empty_store CoreRuns.empty_world).1.1) =
  [("ana", Core.create, Some 0)].
Proof. vm_compute. reflexivity. Qed.

(** The conversation from the empty store: the store still has one slot
    per customer, and the first turn sets only [pending_reservation], so
    the page notes one pending item. *)
Lemma C1_at_most_one_pending_flag_witness :
  Core.single_slot
    (Core.handle_turns CoreRuns.never_rejects CoreRuns.calendar_up 15
       CoreRuns.classify CoreRuns.compose_reply CoreRuns.label
       CoreRuns.conversation Core.empty_store CoreRuns.empty_world).1.1
  /\ length (Chat.pending_info ChatRuns.reply_pending) <= 1.
Proof.
  destruct (C1_at_most_one_pending_flag CoreRuns.never_rejects CoreRuns.calendar_up
              15 CoreRuns.classify CoreRuns.compose_reply CoreRuns.label
              CoreRuns.conversation Core.empty_store CoreRuns.empty_world) as [H1 H2].
  - intros customer. simpl. lia.
  - split; [exact H1|].
    vm_compute in H2. apply Forall_cons_1 in H2. destruct H2 as [[_ H] _].
    apply (H ChatRuns.reply_pending); reflexivity.
Defined.


(* ===================================================================== *)
(** * Further properties of the chat page *)
(* ===================================================================== *)

Section ChatMore.
Import JS Chat.

Variable trim : string -> string.
Variable clock : nat -> string.

Lemma numbered_snoc msgs m :
  numbered msgs -> id m = length msgs + 1 -> numbered (msgs ++ [m]).
Proof.
  unfold numbered. intros H Hm.
  rewrite map_app, length_app, H. simpl.
  rewrite Nat.add_1_r, seq_S. simpl. f_equal. f_equal. lia.
Qed.

(** [loadHistory] when something is thrown inside its [try]. *)
Lemma loadHistory_thrown fetched st :
  (match fetched with
   | inl _ => True
   | inr res =>
       if ok res then exists e, json res = inl e
       else (status res =? 404)%nat = false /\ exists e, text res = inl e
   end) ->
  exists e,
    run (loadHistory clock fetched) st =
      mkState [mkMessage 1 assistant greeting_offline (clock (st_clock_reads st))]
              (st_input st) false
              (st_toasts st ++ ["No pude cargar el historial de chat."])
              (st_console st ++ [e]) (S (st_clock_reads st)).
Proof.
  unfold loadHistory, run, try_catch_finally, bind, await, setIsLoading, setMessages,
    console_error, toast_error, modify, now, ret.
  destruct fetched as [e|res]; simpl.
  - intros _. eexists. reflexivity.
  - destruct (ok res); simpl.
    + intros [e ->]. simpl. eexists. reflexivity.
    + intros [-> [e ->]]. simpl. eexists. reflexivity.
Qed.

(** [loadHistory] on a response that is not OK and whose body, when it
    is read, can be read. *)
Lemma loadHistory_refused res st :
  ok res = false ->
  (status res =? 404)%nat = true \/ (exists body, text res = inr body) ->
  run (loadHistory clock (inr res)) st =
    mkState [mkMessage 1 assistant greeting (clock (st_clock_reads st))]
            (st_input st) false (st_toasts st)
            (if (status res =? 404)%nat then st_console st
             else st_console st ++
                    ["Error al cargar historial: " +:+
                     match text res with inr body => body | inl _ => "" end])
            (S (st_clock_reads st)).
Proof.
  intros Hok H.
  unfold loadHistory, run, try_catch_finally, bind, await, setIsLoading, setMessages,
    console_error, toast_error, modify, now, ret. simpl. rewrite Hok. simpl.
  destruct (status res =? 404)%nat; simpl; [reflexivity|].
  destruct H as [H|[body ->]]; [discriminate|]. reflexivity.
Qed.

(** [loadHistory] on a history the endpoint returned. *)
Lemma loadHistory_loaded res data st :
  ok res = true -> json res = inr data ->
  exists msgs reads,
    run (loadHistory clock (inr res)) st =
      mkState msgs (st_input st) false (st_toasts st) (st_console st) reads
    /\ msgs <> [] /\ numbered msgs.
Proof.
  intros Hok Hjson. unfold loadHistory, run.
  unfold bind at 1. simpl. unfold try_catch_finally.
  unfold bind at 1. simpl. rewrite Hok. simpl.
  unfold bind at 1. rewrite Hjson. simpl.
  unfold bind at 1.
  match goal with |- context [map_history clock 0 ?h ?s] =>
    destruct (map_history_run clock h 0 s) as (msgs & Hrun & Hshown & Hids)
  end.
  rewrite Hrun. simpl.
  assert (Hlen : length msgs = length (history data)).
  { rewrite <- (length_map shown msgs), Hshown. apply length_map. }
  destruct (length msgs =? 0)%nat eqn:E.
  - apply Nat.eqb_eq in E. destruct msgs; [|discriminate].
    simpl. eexists _, _. split; [reflexivity|]. split; [discriminate | reflexivity].
  - apply Nat.eqb_neq in E. simpl. eexists _, _. split; [reflexivity|].
    split; [by destruct msgs|]. unfold numbered. rewrite Hids, Hlen. reflexivity.
Qed.

(** X1: whatever the history endpoint does, [loadHistory] ends with the
    loading flag down and a message list that is not empty and numbered
    from one. *)
Theorem loadHistory_settles fetched st :
  let st' := run (loadHistory clock fetched) st in
  st_isLoading st' = false /\ st_messages st' <> [] /\ numbered (st_messages st').
Proof.
  intros st'. subst st'.
  destruct fetched as [e|res].
  { destruct (loadHistory_thrown (inl e) st I) as [c ->]. by repeat split. }
  destruct (ok res) eqn:Hok.
  - destruct (json res) as [e|data] eqn:Hjson.
    + destruct (loadHistory_thrown (inr res) st) as [c ->].
      { simpl. rewrite Hok. eauto. }
      by repeat split.
    + destruct (loadHistory_loaded res data st Hok Hjson) as (msgs & reads & -> & Hne & Hn).
      by repeat split.
  - destruct (status res =? 404)%nat eqn:H404.
    + rewrite loadHistory_refused by auto. by repeat split.
    + destruct (text res) as [e|body] eqn:Htext.
      * destruct (loadHistory_thrown (inr res) st) as [c ->].
        { simpl. rewrite Hok, H404. eauto. }
        by repeat split.
      * rewrite loadHistory_refused by eauto. by repeat split.
Qed.

(** X2: a response that is not OK is answered with the plain greeting
    and no toast; a 404 leaves the console alone, any other status logs
    the body it could read. *)
Theorem loadHistory_not_ok res st :
  ok res = false ->
  status res = 404 \/ (exists body, text res = inr body) ->
  let st' := run (loadHistory clock (inr res)) st in
  st_messages st' = [mkMessage 1 assistant greeting (clock (st_clock_reads st))]
  /\ st_toasts st' = st_toasts st
  /\ (status res = 404 -> st_console st' = st_console st)
  /\ (forall body, status res <> 404 -> text res = inr body ->
        st_console st' = st_console st ++ ["Error al cargar historial: " +:+ body]).
Proof.
  intros Hok H st'. subst st'.
  rewrite loadHistory_refused; [|done|].
  - simpl. repeat split.
    + intros ->. reflexivity.
    + intros body Hne ->. apply Nat.eqb_neq in Hne. by rewrite Hne.
  - destruct H as [->|H]; [by left | by right].
Qed.

(** X3: when the request is rejected, or an OK response cannot be
    parsed, the offline greeting is the only message and one error
    toast is shown. *)
Theorem loadHistory_offline fetched st :
  (match fetched with
   | inl _ => True
   | inr res => ok res = true /\ exists e, json res = inl e
   end) ->
  let st' := run (loadHistory clock fetched) st in
  st_messages st' =
    [mkMessage 1 assistant greeting_offline (clock (st_clock_reads st))]
  /\ st_toasts st' = st_toasts st ++ ["No pude cargar el historial de chat."].
Proof.
  intros H st'. subst st'.
  destruct (loadHistory_thrown fetched st) as [c ->]; [|by split].
  destruct fetched as [e|res]; [done|]. destruct H as [-> H]. exact H.
Qed.

(** The outcomes of a turn with a non-blank input: the call failed, the
    body of an OK response could not be parsed, or a reply arrived. *)
Lemma chat_outcomes (r : settled (Response ChatResponse)) :
  call_failed r = true
  \/ (exists res e, r = inr res /\ ok res = true /\ json res = inl e)
  \/ (exists res data, r = inr res /\ ok res = true /\ json res = inr data).
Proof.
  destruct r as [e|res]; [by left|]. simpl.
  destruct (ok res) eqn:Hok; [|by left]. right.
  destruct (json res) as [e|data] eqn:Hjson; [left|right]; eauto.
Qed.

(** X4: when the handler's snapshot of the messages is the current list
    and that list is numbered from one, it still is after the turn,
    whatever the backend does: every message appended takes the next
    number. *)
Theorem handleSendMessage_keeps_numbering input backend st :
  numbered (st_messages st) ->
  numbered (st_messages
              (run (handleSendMessage trim clock (st_messages st) input backend) st)).
Proof.
  intros Hn.
  destruct (decide (trim input = "")) as [Hblank|Hin].
  { by rewrite handleSendMessage_blank. }
  destruct (chat_outcomes (backend (mkChatRequest input DASHBOARD_CUSTOMER_ID)))
    as [Hf | [(res & e & Hres & Hok & Hjson) | (res & data & Hres & Hok & Hjson)]].
  - destruct (handleSendMessage_failed trim clock (st_messages st) input backend st Hin Hf)
      as [c ->]. simpl.
    change (?l ++ [?a; ?b]) with (l ++ [a] ++ [b]). rewrite app_assoc.
    apply numbered_snoc; [by apply numbered_snoc|].
    rewrite length_app. simpl. lia.
  - rewrite (handleSendMessage_bad_body _ _ _ _ _ _ _ _ Hin Hres Hok Hjson). simpl.
    change (?l ++ [?a; ?b]) with (l ++ [a] ++ [b]). rewrite app_assoc.
    apply numbered_snoc; [by apply numbered_snoc|].
    rewrite length_app. simpl. lia.
  - rewrite (handleSendMessage_replied _ _ _ _ _ _ _ _ Hin Hres Hok Hjson). simpl.
    assert (H2 : numbered ((st_messages st ++
        [mkMessage (length (st_messages st) + 1) user input (clock (st_clock_reads st))]) ++
        [mkMessage (length (st_messages st) + 1 + 1) assistant (response data)
           (clock (S (st_clock_reads st)))])).
    { apply numbered_snoc; [by apply numbered_snoc|]. rewrite length_app. simpl. lia. }
    destruct (pending_reservation data || pending_update data || pending_cancel data).
    + change (?l ++ ?a :: ?b :: [?c]) with (l ++ [a] ++ [b] ++ [c]).
      rewrite !app_assoc. apply numbered_snoc.
      * rewrite <- app_assoc. rewrite <- app_assoc in H2. exact H2.
      * rewrite !length_app. simpl. lia.
    + change (?l ++ ?a :: ?b :: []) with (l ++ [a] ++ [b]).
      rewrite app_assoc. exact H2.
Qed.

(** X5: a turn with a non-blank input always ends with the input box
    cleared and the loading flag down, whether the backend answered,
    failed or sent a body that cannot be parsed. *)
Theorem handleSendMessage_settles messages input backend st :
  trim input <> "" ->
  let st' := run (handleSendMessage trim clock messages input backend) st in
  st_input st' = "" /\ st_isLoading st' = false.
Proof.
  intros Hin st'. subst st'.
  destruct (chat_outcomes (backend (mkChatRequest input DASHBOARD_CUSTOMER_ID)))
    as [Hf | [(res & e & Hres & Hok & Hjson) | (res & data & Hres & Hok & Hjson)]].
  - destruct (handleSendMessage_failed trim clock messages input backend st Hin Hf)
      as [c ->]. by split.
  - rewrite (handleSendMessage_bad_body _ _ _ _ _ _ _ _ Hin Hres Hok Hjson). by split.
  - rewrite (handleSendMessage_replied _ _ _ _ _ _ _ _ Hin Hres Hok Hjson). by split.
Qed.

(** X6: a reply shows no toast and appends two messages, or three when
    a pending flag is set: the note on pending state follows the answer
    exactly when the response has a flag set. *)
Theorem handleSendMessage_note_iff_pending messages input backend st res data :
  trim input <> "" ->
  backend (mkChatRequest input DASHBOARD_CUSTOMER_ID) = inr res ->
  ok res = true -> json res = inr data ->
  let st' := run (handleSendMessage trim clock messages input backend) st in
  let noted := pending_reservation data || pending_update data || pending_cancel data in
  st_toasts st' = st_toasts st
  /\ length (st_messages st') = length (st_messages st) + 2 + Nat.b2n noted
  /\ (noted = true ->
      exists note, last (st_messages st') = Some note /\ content note = note_content data)
  /\ (noted = false ->
      exists answer, last (st_messages st') = Some answer /\ content answer = response data).
Proof.
  intros Hin Hres Hok Hjson st' noted. subst st'.
  rewrite (handleSendMessage_replied _ _ _ _ _ _ _ _ Hin Hres Hok Hjson). simpl.
  fold noted. destruct noted; simpl.
  - split; [done|]. split; [rewrite length_app; simpl; lia|].
    split; [|discriminate]. intros _. eexists.
    change (?l ++ ?a :: ?b :: [?c]) with (l ++ [a; b] ++ [c]).
    rewrite app_assoc, last_snoc. done.
  - split; [done|]. split; [rewrite length_app; simpl; lia|].
    split; [discriminate|]. intros _. eexists.
    change (?l ++ ?a :: [?b]) with (l ++ [a] ++ [b]).
    rewrite app_assoc, last_snoc. done.
Qed.

(** X7: an OK response whose body cannot be parsed is handled like a
    failed call: the try-again message follows the user's message and
    the error toast is shown. *)
Theorem handleSendMessage_unparsable messages input backend st res e :
  trim input <> "" ->
  backend (mkChatRequest input DASHBOARD_CUSTOMER_ID) = inr res ->
  ok res = true -> json res = inl e ->
  let st' := run (handleSendMessage trim clock messages input backend) st in
  map shown (st_messages st') =
    map shown (st_messages st) ++ [(user, input); (assistant, try_again)]
  /\ st_toasts st' = st_toasts st ++ ["Error al enviar el mensaje al backend."].
Proof.
  intros Hin Hres Hok Hjson st'. subst st'.
  rewrite (handleSendMessage_bad_body _ _ _ _ _ _ _ _ Hin Hres Hok Hjson). simpl.
  by rewrite map_app.
Qed.

(** X8: the backend is asked one thing only, the answer to the request
    that carries the input as typed and the dashboard's customer id:
    two backends that agree on it give the same turn. *)
Theorem handleSendMessage_request messages input backend1 backend2 st :
  backend1 (mkChatRequest input DASHBOARD_CUSTOMER_ID) =
  backend2 (mkChatRequest input DASHBOARD_CUSTOMER_ID) ->
  handleSendMessage trim clock messages input backend1 st =
  handleSendMessage trim clock messages input backend2 st.
Proof.
  intros H. unfold handleSendMessage.
  destruct (negb (truthy (trim input))); [reflexivity|].
  unfold bind, try_catch_finally, await. simpl. rewrite H. reflexivity.
Qed.

End ChatMore.

(* ===================================================================== *)
(** * Properties of the analytics page *)
(* ===================================================================== *)

Section AnalyticsFacts.
Import JS Effects Analytics.

Variable trim : string -> string.
Variable clock : nat -> nat.

(** The answer of the analytics backend, if one arrived and could be
    read. *)
Lemma ask_outcomes (r : settled (Response ManagerAskResponse)) :
  (exists res data, r = inr res /\ ok res = true /\ json res = inr data)
  \/ (match r with
      | inl _ => True
      | inr res => ok res = false \/ exists e, json res = inl e
      end).
Proof.
  destruct r as [e|res]; [by right|].
  destruct (ok res) eqn:Hok; [|right; by left].
  destruct (json res) as [e|data] eqn:Hjson; [right; right|left]; eauto.
Qed.

Lemma handleSend_blank input backend st :
  trim input = "" -> run (handleSend trim clock input backend) st = st.
Proof.
  intros H. unfold handleSend, run. rewrite H. reflexivity.
Qed.

Lemma handleSend_replied input backend st res data :
  trim input <> "" ->
  backend input = inr res -> ok res = true -> json res = inr data ->
  run (handleSend trim clock input backend) st =
    mkState
      (st_messages st ++
         [mkMessage Chat.user input (clock (st_clock_reads st)) None None;
          mkMessage Chat.assistant (reply_content data) (clock (S (st_clock_reads st)))
                    (Some (truthy_opt (plot_url data))) (plot_url data)])
      "" false (st_toasts st) (st_console st) (S (S (st_clock_reads st))).
Proof.
  intros Hin Hres Hok Hjson. apply truthy_nonempty in Hin.
  unfold handleSend, run. rewrite Hin. simpl.
  unfold try_catch_finally, bind, await, setIsLoading, setMessages, setInput,
    modify, now, ret. simpl.
  rewrite Hres. simpl. rewrite Hok. simpl. rewrite Hjson. simpl.
  rewrite <- app_assoc. reflexivity.
Qed.

Lemma handleSend_failed input backend st :
  trim input <> "" ->
  (match backend input with
   | inl _ => True
   | inr res => ok res = false \/ exists e, json res = inl e
   end) ->
  exists e,
    run (handleSend trim clock input backend) st =
      mkState
        (st_messages st ++
           [mkMessage Chat.user input (clock (st_clock_reads st)) None None;
            mkMessage Chat.assistant unreachable (clock (S (st_clock_reads st)))
                      None None])
        "" false
        (st_toasts st ++ [toast_error "Error al consultar el agente de analytics."])
        (st_console st ++ [e]) (S (S (st_clock_reads st))).
Proof.
  intros Hin Hfail. apply truthy_nonempty in Hin.
  unfold handleSend, run. rewrite Hin. simpl.
  unfold try_catch_finally, bind, await, setIsLoading, setMessages, setInput,
    console_error, show_toast, throw, modify, now, ret. simpl.
  destruct (backend input) as [e|res]; simpl.
  - eexists. rewrite <- app_assoc. reflexivity.
  - destruct (ok res) eqn:Hok; simpl.
    + destruct Hfail as [Hfail|[e ->]]; [discriminate|]. simpl.
      eexists. rewrite <- app_assoc. reflexivity.
    + destruct (JS.text res); simpl; eexists; rewrite <- app_assoc; reflexivity.
Qed.

(** X9: [handleSend] only appends to the conversation: the messages
    shown before stay, in their order, and a non-blank question ends
    with the loading flag down whatever the backend does. *)
Theorem handleSend_append_only input backend st :
  let st' := run (handleSend trim clock input backend) st in
  st_messages st `prefix_of` st_messages st'
  /\ (trim input <> "" -> st_isLoading st' = false /\ st_input st' = "").
Proof.
  intros st'. subst st'.
  destruct (decide (trim input = "")) as [Hblank|Hin].
  { rewrite handleSend_blank by done. split; [done|]. intros H. contradiction. }
  destruct (ask_outcomes (backend input))
    as [(res & data & Hres & Hok & Hjson) | Hfail].
  - rewrite (handleSend_replied _ _ _ _ _ Hin Hres Hok Hjson). simpl.
    split; [by eexists | done].
  - destruct (handleSend_failed input backend st Hin Hfail) as [c ->]. simpl.
    split; [by eexists | done].
Qed.

Lemma reply_content_nonempty data : reply_content data <> "".
Proof.
  unfold reply_content, or_else.
  destruct (truthy_opt (error data)); [discriminate|].
  destruct (truthy (text data)) eqn:E; [by apply truthy_nonempty | discriminate].
Qed.

(** X10: the answer to a question is never blank: an error the agent
    reports is shown, prefixed, in place of its text, and an empty text
    is replaced by a fixed notice. *)
Theorem handleSend_answer_text input backend st res data :
  trim input <> "" ->
  backend input = inr res -> ok res = true -> json res = inr data ->
  exists question answer,
    st_messages (run (handleSend trim clock input backend) st) =
      st_messages st ++ [question; answer]
    /\ role answer = Chat.assistant
    /\ content answer <> ""
    /\ (forall e, error data = Some e -> e <> "" -> content answer = "Error: " +:+ e)
    /\ (truthy_opt (error data) = false -> text data <> "" -> content answer = text data)
    /\ (truthy_opt (error data) = false -> text data = "" -> content answer = no_text).
Proof.
  intros Hin Hres Hok Hjson.
  rewrite (handleSend_replied _ _ _ _ _ Hin Hres Hok Hjson). simpl.
  eexists _, _. split; [reflexivity|]. simpl.
  split; [done|]. split; [apply reply_content_nonempty|].
  unfold reply_content, or_else. repeat split.
  - intros e -> He. simpl. apply truthy_nonempty in He. by rewrite He.
  - intros -> Ht. apply truthy_nonempty in Ht. by rewrite Ht.
  - intros -> ->. reflexivity.
Qed.

(** X11: a chart is drawn under the answer exactly when the response
    carries a non-empty [plot_url], which is then the picture's address;
    the question itself never has one. *)
Theorem handleSend_chart_iff_plot_url input backend st res data :
  trim input <> "" ->
  backend input = inr res -> ok res = true -> json res = inr data ->
  exists question answer,
    st_messages (run (handleSend trim clock input backend) st) =
      st_messages st ++ [question; answer]
    /\ chart_shown question = false
    /\ chartUrl answer = plot_url data
    /\ (chart_shown answer = true <-> exists url, plot_url data = Some url /\ url <> "").
Proof.
  intros Hin Hres Hok Hjson.
  rewrite (handleSend_replied _ _ _ _ _ Hin Hres Hok Hjson). simpl.
  eexists _, _. split; [reflexivity|]. split; [reflexivity|]. split; [reflexivity|].
  unfold chart_shown. simpl. rewrite andb_diag.
  destruct (plot_url data) as [url|]; simpl.
  - rewrite truthy_nonempty. split; [eauto | intros (u & Hu & Hne); congruence].
  - split; [discriminate | intros (u & Hu & _); discriminate].
Qed.

(** X12: when the agent cannot be reached, answers with a status that is
    not OK or with a body that cannot be parsed, the fixed notice follows
    the question, without a chart, and one error toast is shown. *)
Theorem handleSend_unreachable input backend st :
  trim input <> "" ->
  (match backend input with
   | inl _ => True
   | inr res => ok res = false \/ exists e, json res = inl e
   end) ->
  let st' := run (handleSend trim clock input backend) st in
  exists question notice,
    st_messages st' = st_messages st ++ [question; notice]
    /\ (role question, content question) = (Chat.user, input)
    /\ (role notice, content notice) = (Chat.assistant, unreachable)
    /\ chart_shown notice = false
    /\ st_toasts st' =
         st_toasts st ++ [toast_error "Error al consultar el agente de analytics."].
Proof.
  intros Hin Hfail st'. subst st'.
  destruct (handleSend_failed input backend st Hin Hfail) as [c ->]. simpl.
  eexists _, _. by repeat split.
Qed.

End AnalyticsFacts.

(* ===================================================================== *)
(** * Properties of the reservations search *)
(* ===================================================================== *)

Section SearchFacts.
Import JS Effects ReservationsPage.

Variable trim : string -> string.

Lemma handleSearch_loaded id backend st response data :
  trim id <> "" ->
  backend (trim id) = inr response -> ok response = true -> json response = inr data ->
  run (handleSearch trim id backend) st =
    mkState data (st_searchCustomerId st) false None
      (st_toasts st ++
         [if (length data =? 0)%nat
          then toast "No se encontraron reservaciones para ese customer_id."
          else toast_success "Reservaciones cargadas correctamente."]).
Proof.
  intros Hin Hres Hok Hjson. apply truthy_nonempty in Hin.
  unfold handleSearch, run. rewrite Hin. simpl.
  unfold try_catch_finally, bind, await, setLoading, setError, setReservations,
    show_toast, modify, ret. simpl.
  rewrite Hres. simpl. rewrite Hok. simpl. rewrite Hjson. simpl.
  destruct (length data =? 0)%nat; reflexivity.
Qed.

Lemma handleSearch_failed id backend st :
  trim id <> "" ->
  forall message,
  (match backend (trim id) with
   | inl e => message = exn_message e
   | inr response =>
       if ok response then exists e, json response = inl e /\ message = exn_message e
       else message = fetch_failed
   end) ->
  run (handleSearch trim id backend) st =
    mkState (st_reservations st) (st_searchCustomerId st) false (Some message)
            (st_toasts st ++ [toast_error message]).
Proof.
  intros Hin message Hfail. apply truthy_nonempty in Hin.
  unfold handleSearch, run. rewrite Hin. simpl.
  unfold try_catch_finally, bind, await, setLoading, setError, setReservations,
    show_toast, throw, modify, ret. simpl.
  destruct (backend (trim id)) as [e|response]; simpl.
  - by subst.
  - destruct (ok response); simpl.
    + destruct Hfail as (e & -> & ->). reflexivity.
    + by subst.
Qed.

(** X13: searching with a blank customer id only raises a toast: the
    reservations loaded before, the error line and the loading flag are
    as they were. *)
Theorem handleSearch_blank id backend st :
  trim id = "" ->
  run (handleSearch trim id backend) st =
    mkState (st_reservations st) (st_searchCustomerId st) (st_loading st) (st_error st)
            (st_toasts st ++ [toast_error "Ingresa un customer_id para buscar."]).
Proof.
  intros H. unfold handleSearch, run. rewrite H. reflexivity.
Qed.

(** X14: a search that fails leaves the reservations loaded before on
    the page; it shows the
    message of the failure both as the error line and as an error toast,
    and takes the loading flag down. A response that is not OK gives the
    fixed message. *)
Theorem handleSearch_failure_keeps_list id backend st :
  trim id <> "" ->
  (match backend (trim id) with
   | inl _ => True
   | inr response => ok response = false \/ exists e, json response = inl e
   end) ->
  let st' := run (handleSearch trim id backend) st in
  st_reservations st' = st_reservations st
  /\ st_loading st' = false
  /\ (exists message,
        st_error st' = Some message
        /\ st_toasts st' = st_toasts st ++ [toast_error message]
        /\ (forall response, backend (trim id) = inr response -> ok response = false ->
              message = fetch_failed)).
Proof.
  intros Hin Hfail st'. subst st'.
  destruct (backend (trim id)) as [e|response] eqn:Hres.
  - rewrite (handleSearch_failed id backend st Hin (exn_message e)) by (by rewrite Hres).
    simpl. repeat split. eexists. repeat split. intros ? [=].
  - destruct (ok response) eqn:Hok.
    + destruct Hfail as [?|[e He]]; [discriminate|].
      rewrite (handleSearch_failed id backend st Hin (exn_message e)).
      * simpl. repeat split. eexists. repeat split. intros ? [= <-]. congruence.
      * rewrite Hres, Hok. eauto.
    + rewrite (handleSearch_failed id backend st Hin fetch_failed)
        by (by rewrite Hres, Hok).
      simpl. repeat split. eexists. repeat split.
Qed.

(** X15: after a search with a non-blank id the error line is empty
    exactly when the search succeeded, and then the reservations on the
    page are the ones returned, an empty result included. *)
Theorem handleSearch_error_iff_failed id backend st :
  trim id <> "" ->
  let st' := run (handleSearch trim id backend) st in
  (st_error st' = None <->
   exists response data,
     backend (trim id) = inr response /\ ok response = true /\ json response = inr data)
  /\ (forall response data,
        backend (trim id) = inr response -> ok response = true ->
        json response = inr data ->
        st_reservations st' = data
        /\ Reservations.totalReservations (st_reservations st') = length data).
Proof.
  intros Hin st'. subst st'. split.
  - destruct (backend (trim id)) as [e|response] eqn:Hres.
    + rewrite (handleSearch_failed id backend st Hin (exn_message e)) by (by rewrite Hres).
      simpl. split; [discriminate | intros (? & ? & [=] & _)].
    + destruct (ok response) eqn:Hok.
      * destruct (json response) as [e|data] eqn:Hjson.
        -- rewrite (handleSearch_failed id backend st Hin (exn_message e))
             by (rewrite Hres, Hok; eauto).
           simpl. split; [discriminate|]. intros (r & d & [= <-] & _ & Hd). congruence.
        -- rewrite (handleSearch_loaded id backend st response data Hin Hres Hok Hjson).
           simpl. split; [eauto | done].
      * rewrite (handleSearch_failed id backend st Hin fetch_failed)
          by (by rewrite Hres, Hok).
        simpl. split; [discriminate|]. intros (r & d & [= <-] & Hk & _). congruence.
  - intros response data Hres Hok Hjson.
    rewrite (handleSearch_loaded id backend st response data Hin Hres Hok Hjson).
    simpl. done.
Qed.

End SearchFacts.

(* ===================================================================== *)
(** * Properties of the customers page *)
(* ===================================================================== *)

(** Filtering keeps the order of the elements it keeps. *)
Lemma filter_sublist {A} (f : A -> bool) (l : list A) : List.filter f l `sublist_of` l.
Proof.
  induction l as [|x l IH]; simpl; [constructor|].
  destruct (f x); by constructor.
Qed.

Section CustomersFacts.
Import JS Effects CRMPage.

Variable trim : string -> string.
Variable toLowerCase : string -> string.

(** X16: a customer is listed exactly when it was loaded and either
    the search is blank or the search, in lower case and as typed, occurs
    in the lowered name, email or whatsapp (a missing contact counting as
    empty); a blank search lists every customer. *)
Theorem filtered_spec (customers : list CRM.Customer) (search : string) :
  (forall c,
     In c (filtered trim toLowerCase customers search) <->
     In c customers /\
     (trim search = "" \/
      Menu.occurs_in (toLowerCase search) (toLowerCase (CRM.name c)) \/
      Menu.occurs_in (toLowerCase search) (toLowerCase (default "" (CRM.email c))) \/
      Menu.occurs_in (toLowerCase search) (toLowerCase (default "" (CRM.whatsapp c)))))
  /\ (trim search = "" -> filtered trim toLowerCase customers search = customers)
  /\ filtered trim toLowerCase customers search `sublist_of` customers.
Proof.
  unfold filtered. destruct (truthy (trim search)) eqn:E; simpl.
  - apply truthy_nonempty in E. split; [|split].
    + intros c. unfold matches.
      rewrite filter_In, !orb_true_iff, !includes_spec. tauto.
    + intros H. contradiction.
    + apply filter_sublist.
  - assert (Hblank : trim search = "").
    { destruct (decide (trim search = "")) as [|Hne]; [done|].
      apply truthy_nonempty in Hne. congruence. }
    split; [|split]; [|done|done].
    intros c. tauto.
Qed.

Lemma loadCustomers_failed fetched st :
  (match fetched with
   | inl _ => True
   | inr res => ok res = false \/ exists e, json res = inl e
   end) ->
  exists e,
    run (loadCustomers fetched) st =
      mkState [] (st_search st) false
        (st_toasts st ++ [toast_error "Error al cargar los clientes del CRM."])
        (st_console st ++ [e]).
Proof.
  intros Hfail.
  unfold loadCustomers, run, try_catch_finally, bind, await, setIsLoading, setCustomers,
    console_error, show_toast, throw, modify, ret. simpl.
  destruct fetched as [e|res]; simpl.
  - eexists. reflexivity.
  - destruct (ok res) eqn:Hok; simpl.
    + destruct Hfail as [?|[e ->]]; [discriminate|]. simpl. eexists. reflexivity.
    + destruct (text res); simpl; eexists; reflexivity.
Qed.

(** X17: when the customers cannot be loaded, the page is left with no
    customer at all, whatever it held before: every figure of the summary
    is zero, the average ticket included, no row is listed for any
    search, the loading flag is down and one error toast is shown. *)
Theorem loadCustomers_failure_clears fetched st :
  (match fetched with
   | inl _ => True
   | inr res => ok res = false \/ exists e, json res = inl e
   end) ->
  let st' := run (loadCustomers fetched) st in
  st_customers st' = []
  /\ CRM.totalCustomers (st_customers st') = 0
  /\ CRM.avgTicketGlobal (st_customers st') = 0%float
  /\ CRM.customersWithAllergies (st_customers st') = 0
  /\ (forall search, filtered trim toLowerCase (st_customers st') search = [])
  /\ st_isLoading st' = false
  /\ st_toasts st' = st_toasts st ++ [toast_error "Error al cargar los clientes del CRM."].
Proof.
  intros Hfail st'. subst st'.
  destruct (loadCustomers_failed fetched st Hfail) as [c ->]. simpl.
  repeat split. intros search. unfold filtered. by destruct (negb _).
Qed.

(** X18: the customers with allergies and the customers without any
    make up the customers: the figure shown never exceeds the total. *)
Theorem customersWithAllergies_partition (customers : list CRM.Customer) :
  CRM.customersWithAllergies customers +
  length (filter (fun c => CRM.allergies c = []) customers) =
  CRM.totalCustomers customers
  /\ CRM.customersWithAllergies customers <= CRM.totalCustomers customers.
Proof.
  assert (H : CRM.customersWithAllergies customers +
              length (filter (fun c => CRM.allergies c = []) customers) =
              CRM.totalCustomers customers).
  { unfold CRM.customersWithAllergies, CRM.totalCustomers.
    induction customers as [|c cs IH]; [reflexivity|].
    simpl. rewrite filter_cons.
    case_decide as Hd; [rewrite Hd | destruct (CRM.allergies c); [done|]]; simpl; lia. }
  split; [exact H | lia].
Qed.

End CustomersFacts.

(* ===================================================================== *)
(** * Properties of the layout *)
(* ===================================================================== *)

(** X19: whatever the pathname, at most one entry of the navigation is
    drawn as active, and it is the entry whose link is the pathname; a
    pathname that is no link of the navigation activates none. *)
Theorem navigation_one_active (pathname : string) :
  length (Layout.active_items pathname) <= 1
  /\ (forall item, In item (Layout.active_items pathname) ->
        In item Layout.navigation /\ Layout.href item = pathname)
  /\ (~ In pathname (map Layout.href Layout.navigation) ->
      Layout.active_items pathname = []).
Proof.
  assert (Hin : forall item, In item (Layout.active_items pathname) ->
                  In item Layout.navigation /\ Layout.href item = pathname).
  { intros item H. apply filter_In in H. destruct H as [H1 H2].
    split; [exact H1|]. unfold Layout.isActive in H2.
    apply String.eqb_eq in H2. done. }
  split; [|split]; [|exact Hin|].
  - unfold Layout.active_items, Layout.isActive, Layout.navigation. simpl.
    repeat match goal with
    | |- context [String.eqb pathname ?s] =>
        destruct (String.eqb_spec pathname s); [subst; simpl; lia|]
    end.
    simpl. lia.
  - intros Hnot. destruct (Layout.active_items pathname) as [|item l] eqn:E; [done|].
    exfalso. apply Hnot. destruct (Hin item) as [H1 H2]; [by left|].
    rewrite <- H2. by apply in_map.
Qed.

(* ===================================================================== *)
(** * Properties of the menu loading *)
(* ===================================================================== *)

Section MenuLoadFacts.
Import JS Effects MenuPage.

Variable parseFloat : string -> float.
Variable String_of_number : float -> string.

Lemma or_else_nonempty a b : b <> "" -> or_else a b <> "".
Proof.
  intros Hb. unfold or_else. destruct (truthy a) eqn:E; [|exact Hb].
  by apply truthy_nonempty.
Qed.

Lemma or_text_nonempty a b : b <> "" -> or_text a b <> "".
Proof.
  intros Hb. destruct a as [s|]; simpl; [by apply or_else_nonempty | exact Hb].
Qed.

Lemma or_else_empty a : or_else a "" = a.
Proof.
  unfold or_else, truthy. destruct (String.eqb_spec a ""); simpl; congruence.
Qed.

(** X20: whatever a search result holds, the item made of it has a
    price that is a number (never NaN, an unreadable price becoming 0),
    and a name and a category that are not empty. *)
Theorem mapResultToItem_well_formed (result : MenuSearchResult) (index : nat) :
  let item := mapResultToItem parseFloat String_of_number result index in
  PrimFloat.is_nan (Menu.price item) = false
  /\ Menu.name item <> ""
  /\ Menu.category item <> "".
Proof.
  intros item. subst item. unfold mapResultToItem. simpl. split; [|split].
  - match goal with |- context [if PrimFloat.is_nan ?p then _ else _] =>
      destruct (PrimFloat.is_nan p) eqn:E
    end; [reflexivity | exact E].
  - repeat apply or_text_nonempty. by apply or_else_nonempty.
  - by repeat apply or_text_nonempty.
Qed.

(** X21: a result without metadata becomes an item named and described
    by its content ("Sin nombre" when the content is empty), identified
    by its position, priced 0, available, in the category of the result
    or "Sin categoría". *)
Theorem mapResultToItem_bare (text : string) (cat : option string) (index : nat) :
  mapResultToItem parseFloat String_of_number (mkResult text cat None) index =
    Menu.mkMenuItem (string_of_nat index) (or_else text "Sin nombre") text 0%float
                    (or_text cat "Sin categoría") true.
Proof.
  unfold mapResultToItem. simpl. by rewrite or_else_empty.
Qed.

(** X22: the English keys of the metadata win over the Spanish ones,
    which win over the content: a non-empty [name] is the name whatever
    [nombre] holds, and a non-empty [nombre] is the name when [name] is
    missing or empty; the price is read from [price] before [precio]. *)
Theorem mapResultToItem_precedence (result : MenuSearchResult) (meta : Metadata)
    (index : nat) :
  metadata result = Some meta ->
  let item := mapResultToItem parseFloat String_of_number result index in
  (forall s, m_name meta = Some s -> s <> "" -> Menu.name item = s)
  /\ (forall s, m_name meta = None \/ m_name meta = Some "" ->
        m_nombre meta = Some s -> s <> "" -> Menu.name item = s)
  /\ (forall x, m_price meta = Some (num x) -> PrimFloat.is_nan x = false ->
        Menu.price item = x)
  /\ (forall x, m_price meta = None -> m_precio meta = Some (num x) ->
        PrimFloat.is_nan x = false -> Menu.price item = x)
  /\ (m_price meta = None -> m_precio meta = None -> Menu.price item = 0%float).
Proof.
  intros Hm item. subst item. unfold mapResultToItem. rewrite Hm. simpl.
  repeat split.
  - intros s -> Hs. simpl. unfold or_else. apply truthy_nonempty in Hs. by rewrite Hs.
  - intros s Hn -> Hs. apply truthy_nonempty in Hs.
    destruct Hn as [-> | ->]; simpl; unfold or_else; simpl; by rewrite Hs.
  - intros x -> Hx. simpl. by rewrite Hx.
  - intros x -> -> Hx. simpl. by rewrite Hx.
  - intros -> ->. reflexivity.
Qed.

Lemma fetchCategories_cases fetched st :
  run (fetchCategories fetched) st = st
  \/ (exists e, run (fetchCategories fetched) st =
        mkState (st_menuItems st) (st_searchQuery st) (st_selectedCategory st)
                (st_categories st) (st_isLoading st) (st_toasts st)
                (st_console st ++ [e]))
  \/ (exists res data cs,
        fetched = inr res /\ ok res = true /\ json res = inr data
        /\ categories data = Some cs /\ cs <> []
        /\ run (fetchCategories fetched) st =
             mkState (st_menuItems st) (st_searchQuery st) (st_selectedCategory st)
                     ("Todos" :: cs) (st_isLoading st) (st_toasts st) (st_console st)).
Proof.
  unfold fetchCategories, run, try_catch_finally, bind, await, setCategories,
    console_error, modify, ret. simpl.
  destruct fetched as [e|res]; simpl.
  { right. left. eexists. reflexivity. }
  destruct (ok res) eqn:Hok; simpl; [|by left].
  destruct (json res) as [e|data] eqn:Hjson; simpl.
  { right. left. eexists. reflexivity. }
  destruct (categories data) as [cs|] eqn:Hc; simpl; [|by left].
  destruct cs as [|c cs]; simpl; [by left|].
  right. right. exists res, data, (c :: cs). by repeat split.
Qed.

(** The categories a response carries: the list it holds, when the
    request was answered OK with a readable body holding a list that is
    not empty. *)
Lemma fetchCategories_set res data cs st :
  ok res = true -> json res = inr data -> categories data = Some cs -> cs <> [] ->
  run (fetchCategories (inr res)) st =
    mkState (st_menuItems st) (st_searchQuery st) (st_selectedCategory st)
            ("Todos" :: cs) (st_isLoading st) (st_toasts st) (st_console st).
Proof.
  intros Hok Hj Hc Hne.
  unfold fetchCategories, run, try_catch_finally, bind, await, setCategories,
    console_error, modify, ret. simpl.
  rewrite Hok. simpl. rewrite Hj. simpl. rewrite Hc.
  destruct cs; [done | reflexivity].
Qed.

Lemma fetchCategories_kept fetched st :
  (match fetched with
   | inl _ => True
   | inr res =>
       ok res = false
       \/ (exists e, json res = inl e)
       \/ (exists data, json res = inr data
                        /\ (categories data = None \/ categories data = Some []))
   end) ->
  st_categories (run (fetchCategories fetched) st) = st_categories st.
Proof.
  unfold fetchCategories, run, try_catch_finally, bind, await, setCategories,
    console_error, modify, ret. simpl.
  destruct fetched as [e|res]; simpl; [done|].
  destruct (ok res) eqn:Hok; simpl; [|done].
  intros [H | [[e He] | (data & Hd & Hc)]]; [discriminate| |].
  - by rewrite He.
  - rewrite Hd. simpl. by destruct Hc as [-> | ->].
Qed.

(** X23: loading the categories sets the tabs to "Todos" followed by the
    categories returned whenever the request is answered OK with a
    readable body that holds a list that is not empty; in every other
    case (a failed request, a response that is not OK, an unreadable
    body, a missing or empty list) the tabs stay as they were. So the
    tabs always start with "Todos" once they do, and loading them never
    raises a toast nor touches the items. *)
Theorem fetchCategories_todos_first fetched st :
  let st' := run (fetchCategories fetched) st in
  (forall res data cs,
     fetched = inr res -> ok res = true -> json res = inr data ->
     categories data = Some cs -> cs <> [] ->
     st_categories st' = "Todos" :: cs)
  /\ ((match fetched with
       | inl _ => True
       | inr res =>
           ok res = false
           \/ (exists e, json res = inl e)
           \/ (exists data, json res = inr data
                            /\ (categories data = None \/ categories data = Some []))
       end) ->
      st_categories st' = st_categories st)
  /\ (forall rest, st_categories st = "Todos" :: rest ->
        exists rest', st_categories st' = "Todos" :: rest')
  /\ st_toasts st' = st_toasts st
  /\ st_menuItems st' = st_menuItems st.
Proof.
  intros st'. subst st'. split; [|split].
  - intros res data cs -> Hok Hj Hc Hne.
    by rewrite (fetchCategories_set res data cs st Hok Hj Hc Hne).
  - apply fetchCategories_kept.
  - destruct (fetchCategories_cases fetched st)
      as [-> | [[e ->] | (res & data & cs & Hf & Hok & Hj & Hc & Hne & ->)]]; simpl;
      repeat split; eauto.
Qed.

(** X24: what the menu asks the backend for: the search text when there
    is one, the selected category otherwise, and nothing when the search
    is empty and the category is "Todos"; a category is never sent along
    with a search text. *)
Theorem search_text_spec (searchQuery selectedCategory : string) :
  (searchQuery <> "" -> search_text searchQuery selectedCategory = searchQuery)
  /\ (searchQuery = "" -> selectedCategory <> "Todos" ->
      search_text searchQuery selectedCategory = selectedCategory)
  /\ (search_text searchQuery selectedCategory = "" <->
      searchQuery = "" /\ (selectedCategory = "Todos" \/ selectedCategory = "")).
Proof.
  clear parseFloat String_of_number.
  unfold search_text, or_else, truthy.
  destruct (String.eqb_spec searchQuery "") as [->|Hq]; simpl;
    destruct (String.eqb_spec selectedCategory "Todos") as [->|Hc]; simpl.
  all: intuition congruence.
Qed.

Lemma fetchMenu_failed searchQuery selectedCategory backend st :
  (match backend (mkRequest (search_text searchQuery selectedCategory) 50) with
   | inl _ => True
   | inr res => ok res = false \/ exists e, json res = inl e
   end) ->
  exists e,
    run (fetchMenu parseFloat String_of_number searchQuery selectedCategory backend) st =
      mkState [] (st_searchQuery st) (st_selectedCategory st) (st_categories st) false
        (st_toasts st ++ [toast_error "Error al buscar en el menú."])
        (st_console st ++ [e]).
Proof.
  intros Hfail.
  unfold fetchMenu, run, try_catch_finally, bind, await, setIsLoading, setMenuItems,
    console_error, show_toast, throw, modify, ret. simpl.
  destruct (backend _) as [e|res]; simpl.
  - eexists. reflexivity.
  - destruct (ok res) eqn:Hok; simpl.
    + destruct Hfail as [?|[e ->]]; [discriminate|]. simpl. eexists. reflexivity.
    + destruct (text res); simpl; eexists; reflexivity.
Qed.

Lemma fetchMenu_loaded searchQuery selectedCategory backend st res data :
  backend (mkRequest (search_text searchQuery selectedCategory) 50) = inr res ->
  ok res = true -> json res = inr data ->
  run (fetchMenu parseFloat String_of_number searchQuery selectedCategory backend) st =
    mkState
      (imap (fun index result => mapResultToItem parseFloat String_of_number result index)
            (nullish (results data) []))
      (st_searchQuery st) (st_selectedCategory st) (st_categories st) false
      (st_toasts st) (st_console st).
Proof.
  intros Hres Hok Hjson.
  unfold fetchMenu, run, try_catch_finally, bind, await, setIsLoading, setMenuItems,
    modify, ret. simpl.
  rewrite Hres. simpl. rewrite Hok. simpl. rewrite Hjson. reflexivity.
Qed.

(** X25: a search that fails empties the menu, whatever was shown
    before: no item is displayed for any search text and category, the
    loading flag is down and one error toast is shown. *)
Theorem fetchMenu_failure_empties searchQuery selectedCategory backend st toLowerCase :
  (match backend (mkRequest (search_text searchQuery selectedCategory) 50) with
   | inl _ => True
   | inr res => ok res = false \/ exists e, json res = inl e
   end) ->
  let st' :=
    run (fetchMenu parseFloat String_of_number searchQuery selectedCategory backend) st in
  st_menuItems st' = []
  /\ (forall q c, Menu.filteredItems toLowerCase (st_menuItems st') q c = [])
  /\ st_isLoading st' = false
  /\ st_toasts st' = st_toasts st ++ [toast_error "Error al buscar en el menú."].
Proof.
  intros Hfail st'. subst st'.
  destruct (fetchMenu_failed searchQuery selectedCategory backend st Hfail) as [c ->].
  simpl. by repeat split.
Qed.

Lemma imap_ids (l : list MenuSearchResult) :
  Forall (fun r => m_sku (nullish (metadata r) no_metadata) = None) l ->
  forall k,
    map Menu.id
        (imap (fun index result =>
                 mapResultToItem parseFloat String_of_number result (k + index)) l) =
    map string_of_nat (seq k (length l)).
Proof.
  induction 1 as [|r l Hr Hl IH]; intros k; [reflexivity|].
  rewrite imap_cons. simpl. f_equal.
  - unfold mapResultToItem. simpl. rewrite Hr. simpl. by rewrite Nat.add_0_r.
  - rewrite <- (IH (S k)). f_equal. apply imap_ext. intros i x _. simpl.
    f_equal. lia.
Qed.

(** X26: a search that succeeds shows one item per result returned, in
    the order returned, without a toast and with the loading flag down;
    when no result carries a SKU the items are identified by their
    positions, so no two items share an id. *)
Theorem fetchMenu_loads_every_result searchQuery selectedCategory backend st res data :
  backend (mkRequest (search_text searchQuery selectedCategory) 50) = inr res ->
  ok res = true -> json res = inr data ->
  let st' :=
    run (fetchMenu parseFloat String_of_number searchQuery selectedCategory backend) st in
  let found := nullish (results data) [] in
  length (st_menuItems st') = length found
  /\ (forall i r, found !! i = Some r ->
        st_menuItems st' !! i = Some (mapResultToItem parseFloat String_of_number r i))
  /\ st_toasts st' = st_toasts st
  /\ st_isLoading st' = false
  /\ (Forall (fun r => m_sku (nullish (metadata r) no_metadata) = None) found ->
      NoDup (map Menu.id (st_menuItems st'))).
Proof.
  intros Hres Hok Hjson st' found. subst st'.
  rewrite (fetchMenu_loaded _ _ _ _ _ _ Hres Hok Hjson). simpl. fold found.
  split; [apply length_imap|]. split.
  { intros i r Hi. rewrite list_lookup_imap, Hi. reflexivity. }
  split; [done|]. split; [done|].
  intros Hsku. pose proof (imap_ids found Hsku 0) as H. simpl in H. rewrite H.
  apply NoDup_fmap_2; [|apply NoDup_seq].
  unfold string_of_nat. intros x y Hxy. by apply (inj pretty).
Qed.

End MenuLoadFacts.

(* ===================================================================== *)
(** * Runs *)
(* ===================================================================== *)

(** A history endpoint answering 500: the greeting, and the body in the
    console. *)
Lemma loadHistory_not_ok_witness :
  let st' := Chat.run (Chat.loadHistory ChatRuns.clock (inr PageRuns.history_down))
                      ChatRuns.idle in
  Chat.st_messages st' = [Chat.mkMessage 1 Chat.assistant Chat.greeting "10:00"]
  /\ Chat.st_toasts st' = []
  /\ Chat.st_console st' = ["Error al cargar historial: Internal Server Error"].
Proof.
  destruct (loadHistory_not_ok ChatRuns.clock PageRuns.history_down ChatRuns.idle)
    as (H1 & H2 & _ & H4).
  - reflexivity.
  - right. eexists. reflexivity.
  - split; [exact H1|]. split; [exact H2|].
    apply (H4 "Internal Server Error"); [discriminate | reflexivity].
Defined.

(** A history request that is rejected. *)
Lemma loadHistory_offline_witness :
  let st' := Chat.run (Chat.loadHistory ChatRuns.clock (inl (JS.Error "Failed to fetch")))
                      ChatRuns.idle in
  Chat.st_messages st' = [Chat.mkMessage 1 Chat.assistant Chat.greeting_offline "10:00"]
  /\ Chat.st_toasts st' = ["No pude cargar el historial de chat."].
Proof.
  apply (loadHistory_offline ChatRuns.clock (inl (JS.Error "Failed to fetch"))
           ChatRuns.idle I).
Defined.

(** A turn on an empty, hence numbered, list. *)
Lemma handleSendMessage_keeps_numbering_witness :
  numbered (Chat.st_messages
              (Chat.run (Chat.handleSendMessage JS.ascii_trim ChatRuns.clock
                           (Chat.st_messages ChatRuns.idle) "hola" ChatRuns.answering)
                        ChatRuns.idle)).
Proof.
  apply (handleSendMessage_keeps_numbering JS.ascii_trim ChatRuns.clock "hola"
           ChatRuns.answering ChatRuns.idle).
  reflexivity.
Defined.

Lemma handleSendMessage_settles_witness :
  let st' := Chat.run (Chat.handleSendMessage JS.ascii_trim ChatRuns.clock [] "hola"
                         ChatRuns.unavailable) ChatRuns.idle in
  Chat.st_input st' = "" /\ Chat.st_isLoading st' = false.
Proof.
  apply (handleSendMessage_settles JS.ascii_trim ChatRuns.clock [] "hola"
           ChatRuns.unavailable ChatRuns.idle).
  vm_compute. discriminate.
Defined.

(** A reply with a pending flag: three messages, the last one the note. *)
Lemma handleSendMessage_note_iff_pending_witness :
  let st' := Chat.run (Chat.handleSendMessage JS.ascii_trim ChatRuns.clock [] "hola"
                         ChatRuns.answering) ChatRuns.idle in
  length (Chat.st_messages st') = 3
  /\ exists note, last (Chat.st_messages st') = Some note
                  /\ Chat.content note = Chat.note_content ChatRuns.reply_pending.
Proof.
  destruct (handleSendMessage_note_iff_pending JS.ascii_trim ChatRuns.clock [] "hola"
              ChatRuns.answering ChatRuns.idle
              (JS.mkResponse true 200 (inr "") (inr ChatRuns.reply_pending))
              ChatRuns.reply_pending)
    as (_ & H2 & H3 & _); try reflexivity.
  - vm_compute. discriminate.
  - split; [exact H2 | apply H3; reflexivity].
Defined.

(** A 200 whose body is a web page. *)
Lemma handleSendMessage_unparsable_witness :
  let st' := Chat.run (Chat.handleSendMessage JS.ascii_trim ChatRuns.clock [] "hola"
                         PageRuns.garbled) ChatRuns.idle in
  map Chat.shown (Chat.st_messages st') =
    [(Chat.user, "hola"); (Chat.assistant, Chat.try_again)]
  /\ Chat.st_toasts st' = ["Error al enviar el mensaje al backend."].
Proof.
  apply (handleSendMessage_unparsable JS.ascii_trim ChatRuns.clock [] "hola"
           PageRuns.garbled ChatRuns.idle
           (JS.mkResponse true 200 (inr "<html>") (inl (JS.Error "Unexpected token <")))
           (JS.Error "Unexpected token <")); try reflexivity.
  vm_compute. discriminate.
Defined.

(** A backend that answers only the request the page sends. *)
Lemma handleSendMessage_request_witness :
  Chat.handleSendMessage JS.ascii_trim ChatRuns.clock [] " hola " ChatRuns.answering
    ChatRuns.idle =
  Chat.handleSendMessage JS.ascii_trim ChatRuns.clock [] " hola "
    (fun req => if String.eqb (Chat.req_message req) " hola "
                then ChatRuns.answering req else ChatRuns.unavailable req)
    ChatRuns.idle.
Proof.
  apply (handleSendMessage_request JS.ascii_trim ChatRuns.clock [] " hola ").
  reflexivity.
Defined.

(** A question the agent answers with a plot. *)
Lemma handleSend_append_only_witness :
  let st' := Effects.run (Analytics.handleSend JS.ascii_trim PageRuns.instant "top skus"
                            PageRuns.agent) (Analytics.initial PageRuns.instant) in
  Analytics.st_isLoading st' = false /\ Analytics.st_input st' = "".
Proof.
  apply (proj2 (handleSend_append_only JS.ascii_trim PageRuns.instant "top skus"
                  PageRuns.agent (Analytics.initial PageRuns.instant))).
  vm_compute. discriminate.
Defined.

Lemma handleSend_answer_text_witness :
  exists question answer,
    Analytics.st_messages
      (Effects.run (Analytics.handleSend JS.ascii_trim PageRuns.instant "top skus"
                      PageRuns.agent) (Analytics.initial PageRuns.instant)) =
      Analytics.st_messages (Analytics.initial PageRuns.instant) ++ [question; answer]
    /\ Analytics.content answer = "Top 10 SKUs".
Proof.
  destruct (handleSend_answer_text JS.ascii_trim PageRuns.instant "top skus"
              PageRuns.agent (Analytics.initial PageRuns.instant)
              (JS.mkResponse true 200 (inr "") (inr PageRuns.plotted)) PageRuns.plotted)
    as (question & answer & H1 & _ & _ & _ & H5 & _); try reflexivity.
  - vm_compute. discriminate.
  - exists question, answer. split; [exact H1|].
    apply H5; [reflexivity | discriminate].
Defined.

Lemma handleSend_chart_iff_plot_url_witness :
  exists question answer,
    Analytics.st_messages
      (Effects.run (Analytics.handleSend JS.ascii_trim PageRuns.instant "top skus"
                      PageRuns.agent) (Analytics.initial PageRuns.instant)) =
      Analytics.st_messages (Analytics.initial PageRuns.instant) ++ [question; answer]
    /\ Analytics.chart_shown answer = true.
Proof.
  destruct (handleSend_chart_iff_plot_url JS.ascii_trim PageRuns.instant "top skus"
              PageRuns.agent (Analytics.initial PageRuns.instant)
              (JS.mkResponse true 200 (inr "") (inr PageRuns.plotted)) PageRuns.plotted)
    as (question & answer & H1 & _ & _ & H3); try reflexivity.
  - vm_compute. discriminate.
  - exists question, answer. split; [exact H1|].
    apply H3. exists "/manager/plots/p1". split; [reflexivity | discriminate].
Defined.

Lemma handleSend_unreachable_witness :
  exists question notice,
    Analytics.st_messages
      (Effects.run (Analytics.handleSend JS.ascii_trim PageRuns.instant "top skus"
                      PageRuns.agent_down) (Analytics.initial PageRuns.instant)) =
      Analytics.st_messages (Analytics.initial PageRuns.instant) ++ [question; notice]
    /\ Analytics.content notice = Analytics.unreachable.
Proof.
  destruct (handleSend_unreachable JS.ascii_trim PageRuns.instant "top skus"
              PageRuns.agent_down (Analytics.initial PageRuns.instant))
    as (question & notice & H1 & _ & H3 & _).
  - vm_compute. discriminate.
  - exact I.
  - exists question, notice. split; [exact H1|]. congruence.
Defined.

(** A search with only blanks typed. *)
Lemma handleSearch_blank_witness :
  Effects.run (ReservationsPage.handleSearch JS.ascii_trim "  " PageRuns.bookings)
              PageRuns.searched =
  ReservationsPage.mkState [PageRuns.dinner] "7" false None
    [Effects.toast_error "Ingresa un customer_id para buscar."].
Proof.
  apply (handleSearch_blank JS.ascii_trim "  " PageRuns.bookings PageRuns.searched).
  reflexivity.
Defined.

(** A search answered with status 500: the reservation loaded before
    stays. *)
Lemma handleSearch_failure_keeps_list_witness :
  let st' := Effects.run (ReservationsPage.handleSearch JS.ascii_trim " 7 "
                            PageRuns.bookings_down) PageRuns.searched in
  ReservationsPage.st_reservations st' = [PageRuns.dinner]
  /\ ReservationsPage.st_loading st' = false.
Proof.
  destruct (handleSearch_failure_keeps_list JS.ascii_trim " 7 " PageRuns.bookings_down
              PageRuns.searched) as (H1 & H2 & _).
  - vm_compute. discriminate.
  - left. reflexivity.
  - split; [exact H1 | exact H2].
Defined.

Lemma handleSearch_error_iff_failed_witness :
  let st' := Effects.run (ReservationsPage.handleSearch JS.ascii_trim " 7 "
                            PageRuns.bookings) PageRuns.searched in
  ReservationsPage.st_error st' = None
  /\ ReservationsPage.st_reservations st' = [PageRuns.dinner; PageRuns.dinner].
Proof.
  destruct (handleSearch_error_iff_failed JS.ascii_trim " 7 " PageRuns.bookings
              PageRuns.searched) as [H1 H2].
  - vm_compute. discriminate.
  - split.
    + apply H1. eexists _, _. repeat split; reflexivity.
    + eapply H2; reflexivity.
Defined.

(** A blank search lists the two regulars. *)
Lemma filtered_spec_witness :
  CRMPage.filtered JS.ascii_trim JS.ascii_toLowerCase CRMRuns.regulars "  " =
  CRMRuns.regulars.
Proof.
  destruct (filtered_spec JS.ascii_trim JS.ascii_toLowerCase CRMRuns.regulars "  ")
    as (_ & H & _).
  apply H. reflexivity.
Defined.

(** The customers endpoint answering 502 while two customers are shown. *)
Lemma loadCustomers_failure_clears_witness :
  let st' := Effects.run (CRMPage.loadCustomers PageRuns.crm_down) PageRuns.crowded in
  CRMPage.st_customers st' = []
  /\ CRM.avgTicketGlobal (CRMPage.st_customers st') = 0%float.
Proof.
  destruct (loadCustomers_failure_clears JS.ascii_trim JS.ascii_toLowerCase
              PageRuns.crm_down PageRuns.crowded) as (H1 & _ & H3 & _).
  - left. reflexivity.
  - split; [exact H1 | exact H3].
Defined.

(** A pathname outside the navigation. *)
Lemma navigation_one_active_witness : Layout.active_items "/settings" = [].
Proof.
  destruct (navigation_one_active "/settings") as (_ & _ & H).
  apply H. vm_compute. intuition discriminate.
Defined.

(** The result "tacos" carries both [name] and [nombre], [price] and
    [precio]. *)
Lemma mapResultToItem_precedence_witness :
  let item := MenuPage.mapResultToItem PageRuns.parseFloat PageRuns.String_of_number
                PageRuns.tacos 0 in
  Menu.name item = "Tacos" /\ Menu.price item = 95%float.
Proof.
  destruct (mapResultToItem_precedence PageRuns.parseFloat PageRuns.String_of_number
              PageRuns.tacos
              (MenuPage.mkMetadata (Some "Tacos") (Some "Taquitos") None (Some "Con piña")
                 (Some (MenuPage.num 95%float)) (Some (MenuPage.num 90%float))
                 None None None None) 0 eq_refl) as (H1 & _ & H3 & _).
  split.
  - apply H1; [reflexivity | discriminate].
  - apply H3; reflexivity.
Defined.

(** The first load of the categories: the two categories returned
    follow "Todos". *)
Lemma fetchCategories_todos_first_witness :
  MenuPage.st_categories
    (Effects.run (MenuPage.fetchCategories (inr PageRuns.two_tabs)) MenuPage.initial) =
  ["Todos"; "Platos"; "Bebidas"].
Proof.
  destruct (fetchCategories_todos_first (inr PageRuns.two_tabs) MenuPage.initial)
    as (H & _).
  apply (H PageRuns.two_tabs (MenuPage.mkCategories (Some ["Platos"; "Bebidas"]))
           ["Platos"; "Bebidas"]); try reflexivity.
  discriminate.
Defined.

Lemma search_text_spec_witness :
  MenuPage.search_text "tacos" "Bebidas" = "tacos"
  /\ MenuPage.search_text "" "Bebidas" = "Bebidas".
Proof.
  split.
  - apply (proj1 (search_text_spec "tacos" "Bebidas")). discriminate.
  - apply (proj1 (proj2 (search_text_spec "" "Bebidas"))); [reflexivity | discriminate].
Defined.

Lemma fetchMenu_failure_empties_witness :
  let st' := Effects.run (MenuPage.fetchMenu PageRuns.parseFloat PageRuns.String_of_number
                            "tacos" "Todos" PageRuns.kitchen_down) MenuPage.initial in
  MenuPage.st_menuItems st' = [] /\ MenuPage.st_isLoading st' = false.
Proof.
  destruct (fetchMenu_failure_empties PageRuns.parseFloat PageRuns.String_of_number
              "tacos" "Todos" PageRuns.kitchen_down MenuPage.initial JS.ascii_toLowerCase)
    as (H1 & _ & H3 & _).
  - exact I.
  - split; [exact H1 | exact H3].
Defined.

Lemma fetchMenu_loads_every_result_witness :
  let st' := Effects.run (MenuPage.fetchMenu PageRuns.parseFloat PageRuns.String_of_number
                            "" "Todos" PageRuns.kitchen) MenuPage.initial in
  length (MenuPage.st_menuItems st') = 2
  /\ NoDup (map Menu.id (MenuPage.st_menuItems st')).
Proof.
  destruct (fetchMenu_loads_every_result PageRuns.parseFloat PageRuns.String_of_number
              "" "Todos" PageRuns.kitchen MenuPage.initial
              (JS.mkResponse true 200 (inr "")
                 (inr (MenuPage.mkSearchResponse "" (Some [PageRuns.tacos; PageRuns.agua]))))
              (MenuPage.mkSearchResponse "" (Some [PageRuns.tacos; PageRuns.agua]))
              eq_refl eq_refl eq_refl) as (H1 & _ & _ & _ & H5).
  split; [exact H1|]. apply H5. repeat constructor.
Defined.

Example menu_load_run :
  map (fun item => (Menu.id item, Menu.name item, Menu.description item,
                    Menu.category item, Menu.available item))
      (MenuPage.st_menuItems
         (Effects.run (MenuPage.fetchMenu PageRuns.parseFloat PageRuns.String_of_number
                         "" "Todos" PageRuns.kitchen) MenuPage.initial)) =
  [("0", "Tacos", "Con piña", "Platos", true);
   ("1", "Agua de jamaica", "Agua de jamaica", "Sin categoría", true)].
Proof. vm_compute. reflexivity. Qed.

Example analytics_run :
  map (fun m => (Analytics.role m, Analytics.content m, Analytics.chart_shown m))
      (Analytics.st_messages
         (Effects.run (Analytics.handleSend JS.ascii_trim PageRuns.instant "top skus"
                         PageRuns.agent) (Analytics.initial PageRuns.instant))) =
  [(Chat.assistant, Analytics.greeting, false); (Chat.user, "top skus", false);
   (Chat.assistant, "Top 10 SKUs", true)].
Proof. vm_compute. reflexivity. Qed.
